(** * Guardial Python SDK: a shallow embedding of [guardial/__init__.py]

    The module is I/O glue: it resolves a configuration from arguments and
    the process environment, posts request metadata to a remote service with
    [requests.post], and turns the [allowed] flag of the answer into "call
    the handler" or "reject with 403".

    The embedding keeps that shape.  Everything the module reads from or
    writes to the outside (the environment, the clock, [uuid4], the remote
    service, standard output, the module-level [_client]) is a field of one
    [World] record, and every function of the module is a computation in a
    state-and-exception monad over [World]. *)

From Stdlib Require Import ZArith Ascii String List Bool Floats.
From stdpp Require Import base option list strings gmap pretty.

Set Warnings "-register-all".

Local Open Scope string_scope.
Local Open Scope Z_scope.

(** ** Python strings

    A Python [str] is modelled by the Rocq [string] of its UTF-8 bytes: an
    ASCII character is one byte, and equality, concatenation, prefix and
    substring tests on the text are those on the bytes. *)

Module PyStr.

(** [str.lower] on one ASCII character: a capital moves up by 32. *)
Definition lower_char (c : ascii) : ascii :=
  let n := N_of_ascii c in
  if ((65 <=? n) && (n <=? 90))%N then ascii_of_N (n + 32) else c.

(** [str.lower].  Besides the ASCII capitals it folds the Latin-1
    capitals U+00C0..U+00DE (bytes C3 80 .. C3 9E; U+00D7, the
    multiplication sign, is no letter), U+0130 (C4 B0, which becomes [i]
    followed by U+0307) and U+212A, the Kelvin sign (E2 84 AA), which
    becomes [k]: the only character outside ASCII whose lower-case form is
    ASCII.  The bytes of any other character are kept; its lower-case form
    is not ASCII either, and the module compares lower-cased text with
    ASCII literals only. *)
Fixpoint lower (s : string) : string :=
  match s with
  | EmptyString => EmptyString
  | String c1 s1 =>
      let n1 := N_of_ascii c1 in
      match s1 with
      | EmptyString => String (lower_char c1) EmptyString
      | String c2 s2 =>
          let n2 := N_of_ascii c2 in
          if ((n1 =? 195) && (128 <=? n2) && (n2 <=? 158) && negb (n2 =? 151))%N
          then String c1 (String (ascii_of_N (n2 + 32)) (lower s2))
          else if ((n1 =? 196) && (n2 =? 176))%N
          then String "i" (String "204" (String "135" (lower s2)))
          else
            match s2 with
            | EmptyString => String (lower_char c1) (lower s1)
            | String c3 s3 =>
                if ((n1 =? 226) && (n2 =? 132) && (N_of_ascii c3 =? 170))%N
                then String "k" (lower s3)
                else String (lower_char c1) (lower s1)
            end
      end
  end.

(** [s.startswith(p)] *)
Fixpoint startswith (s p : string) : bool :=
  match p, s with
  | EmptyString, _ => true
  | String _ _, EmptyString => false
  | String a p', String b s' => bool_decide (a = b) && startswith s' p'
  end.

(** [s[:n]] for ASCII text (the module slices a hex string only) *)
Fixpoint slice_to (n : nat) (s : string) : string :=
  match n, s with
  | O, _ => EmptyString
  | S _, EmptyString => EmptyString
  | S n', String c s' => String c (slice_to n' s')
  end.

(** Truthiness of a string: only the empty string is falsy. *)
Definition truthy (s : string) : bool :=
  match s with EmptyString => false | String _ _ => true end.

(** [x or y] where [x : Optional[str]] and [y : str]. *)
Definition or_else (x : option string) (y : string) : string :=
  match x with
  | Some s => if truthy s then s else y
  | None => y
  end.

(** [x in xs] for a list of strings. *)
Definition in_list (x : string) (xs : list string) : bool :=
  existsb (fun y => bool_decide (x = y)) xs.

End PyStr.

(** ** Python values

    The values that travel as JSON: what [response.json()] returns and what
    the fallback dictionaries are made of.  A [dict] with string keys is a
    [gmap string]. *)

Inductive pyval : Type :=
| PNone
| PBool (b : bool)
| PInt (z : Z)
| PFloat (f : float)
| PStr (s : string)
| PList (l : list pyval)
| PDict (d : gmap string pyval).

Module Py.

(** [bool(v)]: [None], [False], [0], [0.0] and [-0.0], the empty string,
    list and dict are falsy. *)
Definition truthy (v : pyval) : bool :=
  match v with
  | PNone => false
  | PBool b => b
  | PInt z => negb (z =? 0)
  | PFloat f => negb (PrimFloat.eqb f PrimFloat.zero)
  | PStr s => PyStr.truthy s
  | PList l => match l with [] => false | _ => true end
  | PDict d => negb (bool_decide (d = ∅))
  end.

(** [type(v).__name__] *)
Definition type_name (v : pyval) : string :=
  match v with
  | PNone => "NoneType"
  | PBool _ => "bool"
  | PInt _ => "int"
  | PFloat _ => "float"
  | PStr _ => "str"
  | PList _ => "list"
  | PDict _ => "dict"
  end.

End Py.

(** ** Exceptions

    [is_Exception] tells the subclasses of [Exception] (what
    [except Exception] catches) from the other [BaseException]s. *)

Inductive RequestsError : Type :=
| ConnectionError      (* network failure *)
| Timeout              (* connect or read timeout *)
| HTTPError            (* raised by [raise_for_status] *)
| JSONDecodeError.     (* raised by [response.json()] *)

Inductive Exn : Type :=
| ValueError (msg : string)
| AttributeError (msg : string)
| TypeError (msg : string)
| RequestException (kind : RequestsError) (msg : string)
| FastAPIHTTPException (status_code : Z) (detail : string)
| WerkzeugAbort (status_code : Z) (description : string)
| OtherException (msg : string)
| KeyboardInterrupt.

Definition is_Exception (e : Exn) : bool :=
  match e with
  | KeyboardInterrupt => false
  | _ => true
  end.

(** [str(e)] *)
Definition exn_str (e : Exn) : string :=
  match e with
  | ValueError m | AttributeError m | TypeError m | RequestException _ m
  | OtherException m => m
  | FastAPIHTTPException c d => pretty c ++ ": " ++ d
  | WerkzeugAbort c d =>
      pretty c ++ (if c =? 403 then " Forbidden: " else " Unknown Error: ") ++ d
  | KeyboardInterrupt => ""
  end.

(** ** Data records of the module *)

(** The attributes [GuardialConfig.__init__] sets on [self]. *)
Record GuardialConfig : Type := mkConfig {
  api_key : string;
  endpoint : string;
  customer_id : string;
  debug : bool;
  timeout : Z;
  session_id : string
}.

Record GuardialClient : Type := mkClient { config : GuardialConfig }.

(** The [event] dictionary of [analyze_event], one field per key. *)
Record Event : Type := mkEvent {
  ev_method : string;
  ev_path : string;
  ev_source_ip : string;
  ev_user_agent : string;
  ev_headers : gmap string string;
  ev_query_params : string;
  ev_request_body : string;
  ev_customer_id : string;
  ev_has_auth : bool;
  ev_session_id : string
}.

(** The [json=] argument of the two POST calls. *)
Inductive Payload : Type :=
| EventJson (event : Event)
| GuardJson (input : string) (context : gmap string pyval).

(** One call of [requests.post]. *)
Record PostCall : Type := mkPost {
  post_url : string;
  post_json : Payload;
  post_headers : gmap string string;
  post_timeout : Z
}.

(** What [response.json()] finds in the body. *)
Inductive JsonBody : Type :=
| JsonValue (v : pyval)
| JsonMalformed (msg : string).

(** A [requests.Response], as far as the module looks at it. *)
Record Response : Type := mkResponse {
  resp_status : Z;
  resp_reason : string;
  resp_url : string;
  resp_body : JsonBody
}.

(** [requests.post] either raises or returns a response. *)
Inductive PostOutcome : Type :=
| Raises (e : Exn)
| Responds (r : Response).

(** A Starlette request, by the expressions the adapters evaluate on it:
    [request.method], [request.url.path], [str(request.url.query)],
    [request.client] ([None] or an address with a [host]),
    [request.headers.get('user-agent')], [dict(request.headers)] and the
    body decoded with [errors='ignore']. *)
Record AsgiRequest : Type := mkAsgi {
  a_method : string;
  a_path : string;
  a_query : string;
  a_client : option string;
  a_user_agent : option string;
  a_headers : gmap string string;
  a_body : string
}.

(** The Flask request proxy, likewise: [request.method], [request.path],
    [request.remote_addr], [request.headers.get('user-agent')],
    [dict(request.headers)], [request.query_string.decode()] and
    [request.get_data(as_text=True)]. *)
Record FlaskRequest : Type := mkFlask {
  f_method : string;
  f_path : string;
  f_remote_addr : option string;
  f_user_agent : option string;
  f_headers : gmap string string;
  f_query_string : string;
  f_data : string
}.

(** A positional or keyword argument of a decorated handler: an object
    with [method] and [url] attributes (a request), or any other value. *)
Inductive Arg : Type :=
| ArgRequest (r : AsgiRequest)
| ArgValue (v : pyval).

(** One invocation of a wrapped handler, with its positional and its
    keyword arguments. *)
Record Call : Type := mkCall {
  call_args : list Arg;
  call_kwargs : list (string * Arg)
}.

(** ** The world the module runs in *)

Record World : Type := mkWorld {
  environ : gmap string string;      (* os.environ *)
  time_src : nat -> Z;               (* successive values of int(time.time()) *)
  time_reads : nat;
  uuid_src : nat -> string;          (* successive values of uuid.uuid4().hex *)
  uuid_reads : nat;
  remote : nat -> PostOutcome;       (* what the n-th requests.post meets *)
  posts : list PostCall;             (* the requests.post calls made so far *)
  stdout : list string;              (* lines printed so far *)
  _client : option GuardialClient;   (* the module-level singleton *)
  calls : list Call                  (* handler invocations so far *)
}.

Definition set_time_reads (n : nat) (w : World) : World :=
  mkWorld (environ w) (time_src w) n (uuid_src w) (uuid_reads w)
          (remote w) (posts w) (stdout w) (_client w) (calls w).
Definition set_uuid_reads (n : nat) (w : World) : World :=
  mkWorld (environ w) (time_src w) (time_reads w) (uuid_src w) n
          (remote w) (posts w) (stdout w) (_client w) (calls w).
Definition set_posts (l : list PostCall) (w : World) : World :=
  mkWorld (environ w) (time_src w) (time_reads w) (uuid_src w) (uuid_reads w)
          (remote w) l (stdout w) (_client w) (calls w).
Definition set_stdout (l : list string) (w : World) : World :=
  mkWorld (environ w) (time_src w) (time_reads w) (uuid_src w) (uuid_reads w)
          (remote w) (posts w) l (_client w) (calls w).
Definition set_client (c : option GuardialClient) (w : World) : World :=
  mkWorld (environ w) (time_src w) (time_reads w) (uuid_src w) (uuid_reads w)
          (remote w) (posts w) (stdout w) c (calls w).
Definition set_calls (l : list Call) (w : World) : World :=
  mkWorld (environ w) (time_src w) (time_reads w) (uuid_src w) (uuid_reads w)
          (remote w) (posts w) (stdout w) (_client w) l.

(** ** The monad: state passing with exceptions *)

Inductive Outcome (A : Type) : Type :=
| Ok (a : A)
| Raise (e : Exn).
Arguments Ok {A} a.
Arguments Raise {A} e.

Definition M (A : Type) : Type := World -> Outcome A * World.

Definition ret {A} (a : A) : M A := fun w => (Ok a, w).

Definition bind {A B} (m : M A) (k : A -> M B) : M B :=
  fun w => match m w with
           | (Ok a, w') => k a w'
           | (Raise e, w') => (Raise e, w')
           end.

Definition raise {A} (e : Exn) : M A := fun w => (Raise e, w).

(** [try: body / except Exception as e: handler e] *)
Definition try_except {A} (body : M A) (handler : Exn -> M A) : M A :=
  fun w => match body w with
           | (Ok a, w') => (Ok a, w')
           | (Raise e, w') =>
               if is_Exception e then handler e w' else (Raise e, w')
           end.

Definition run {A} (m : M A) (w : World) : Outcome A * World := m w.

(** stdpp's monad notation: [x ← m; k] and [m;; k]. *)
#[global] Instance M_ret : MRet M := @ret.
#[global] Instance M_bind : MBind M := fun A B k m => bind m k.

(** ** The library calls the module makes *)

(** [os.getenv(key, default)] *)
Definition getenv (key dflt : string) : M string :=
  fun w => (Ok (default dflt (environ w !! key)), w).

(** [int(time.time())] *)
Definition time_time : M Z :=
  fun w => (Ok (time_src w (time_reads w)), set_time_reads (S (time_reads w)) w).

(** [uuid.uuid4().hex] *)
Definition uuid4_hex : M string :=
  fun w => (Ok (uuid_src w (uuid_reads w)), set_uuid_reads (S (uuid_reads w)) w).

(** [print(line)] *)
Definition print (line : string) : M unit :=
  fun w => (Ok tt, set_stdout (stdout w ++ [line]) w).

(** [requests.post(url, json=.., headers=.., timeout=..)]: the call is
    recorded, and the remote side decides what comes back. *)
Definition requests_post (url : string) (json : Payload)
    (headers : gmap string string) (tmo : Z) : M Response :=
  fun w =>
    let w' := set_posts (posts w ++ [mkPost url json headers tmo]) w in
    match remote w (length (posts w)) with
    | Raises e => (Raise e, w')
    | Responds r => (Ok r, w')
    end.

(** The message [raise_for_status] builds, empty when the status is
    neither a client error (4xx) nor a server error (5xx). *)
Definition http_error_msg (r : Response) : string :=
  if (400 <=? resp_status r) && (resp_status r <? 500) then
    pretty (resp_status r) ++ " Client Error: " ++ resp_reason r
      ++ " for url: " ++ resp_url r
  else if (500 <=? resp_status r) && (resp_status r <? 600) then
    pretty (resp_status r) ++ " Server Error: " ++ resp_reason r
      ++ " for url: " ++ resp_url r
  else "".

(** [response.raise_for_status()] raises [HTTPError] when there is a
    message. *)
Definition raise_for_status (r : Response) : M unit :=
  if PyStr.truthy (http_error_msg r)
  then raise (RequestException HTTPError (http_error_msg r))
  else ret tt.

(** [response.json()] *)
Definition response_json (r : Response) : M pyval :=
  match resp_body r with
  | JsonValue v => ret v
  | JsonMalformed msg => raise (RequestException JSONDecodeError msg)
  end.

(** ** [GuardialConfig] *)

Definition missing_key_msg : string :=
  "GUARDIAL_API_KEY environment variable is required or pass api_key parameter".

(** [GuardialConfig.__init__], with the parameters of the signature. *)
Definition GuardialConfig_init (api_key endpoint customer_id : option string)
    (debug : bool) (timeout : Z) : M GuardialConfig :=
  env_key ← getenv "GUARDIAL_API_KEY" "";
  let self_api_key := PyStr.or_else api_key env_key in
  env_endpoint ← getenv "GUARDIAL_ENDPOINT" "https://api.guardial.in";
  let self_endpoint := PyStr.or_else endpoint env_endpoint in
  env_customer ← getenv "GUARDIAL_CUSTOMER_ID" "default";
  let self_customer_id := PyStr.or_else customer_id env_customer in
  env_debug ← getenv "GUARDIAL_DEBUG" "false";
  let self_debug :=
    debug || bool_decide (PyStr.lower env_debug = "true") in
  let self_timeout := timeout in
  now ← time_time;
  hex ← uuid4_hex;
  let self_session_id :=
    "session_" ++ pretty now ++ "_" ++ PyStr.slice_to 9 hex in
  if negb (PyStr.truthy self_api_key)
  then raise (ValueError missing_key_msg)
  else ret (mkConfig self_api_key self_endpoint self_customer_id
                     self_debug self_timeout self_session_id).

(** The keyword arguments a caller may pass; an omitted one takes the
    default of the signature ([None], [None], [None], [False], [30]). *)
Record ConfigArgs : Type := mkArgs {
  arg_api_key : option string;
  arg_endpoint : option string;
  arg_customer_id : option string;
  arg_debug : option bool;
  arg_timeout : option Z
}.

Definition GuardialConfig_new (a : ConfigArgs) : M GuardialConfig :=
  GuardialConfig_init (arg_api_key a) (arg_endpoint a) (arg_customer_id a)
                      (default false (arg_debug a)) (default 30 (arg_timeout a)).

Definition no_args : ConfigArgs := mkArgs None None None None None.

(** ** [GuardialClient] *)

(** [GuardialClient.__init__]: [config or GuardialConfig()]; a
    configuration object is always truthy. *)
Definition GuardialClient_init (config : option GuardialConfig)
    : M GuardialClient :=
  match config with
  | Some c => ret (mkClient c)
  | None => c ← GuardialConfig_new no_args; ret (mkClient c)
  end.

(** [_has_auth_headers]: does some key of [headers], lower-cased, occur in
    the list of authentication header names? *)
Definition auth_headers : list string :=
  ["authorization"; "x-api-key"; "x-auth-token"].

Definition _has_auth_headers (headers : gmap string string) : bool :=
  existsb (fun h => PyStr.in_list (PyStr.lower h) auth_headers)
          (map fst (map_to_list headers)).

(** The [event] dictionary [analyze_event] builds before the call;
    [x or ""] and [headers or {}] replace a missing or empty argument. *)
Definition build_event (self : GuardialClient) (method path source_ip : string)
    (user_agent : option string) (headers : option (gmap string string))
    (query_params request_body : option string) : Event :=
  mkEvent method path source_ip
          (PyStr.or_else user_agent "")
          (default ∅ headers)
          (PyStr.or_else query_params "")
          (PyStr.or_else request_body "")
          (customer_id (config self))
          (_has_auth_headers (default ∅ headers))
          (session_id (config self)).

(** The two fallback dictionaries. *)
Definition fallback (allowed : bool) (e : Exn) : pyval :=
  PDict (<["allowed" := PBool allowed]> {[ "error" := PStr (exn_str e) ]}).

Definition api_key_header (self : GuardialClient) : gmap string string :=
  {[ "X-API-Key" := api_key (config self) ]}.

(** [GuardialClient.analyze_event] *)
Definition analyze_event (self : GuardialClient) (method path source_ip : string)
    (user_agent : option string) (headers : option (gmap string string))
    (query_params request_body : option string) : M pyval :=
  let event := build_event self method path source_ip user_agent headers
                           query_params request_body in
  try_except
    (response ← requests_post (endpoint (config self) ++ "/api/events")
                   (EventJson event) (api_key_header self)
                   (timeout (config self));
     raise_for_status response;;
     response_json response)
    (fun e =>
       (if debug (config self)
        then print ("[Guardial SDK] Analysis failed: " ++ exn_str e)
        else ret tt);;
       ret (fallback true e)).

(** [GuardialClient.prompt_guard] *)
Definition prompt_guard (self : GuardialClient) (input_text : string)
    (context : option (gmap string pyval)) : M pyval :=
  try_except
    (response ← requests_post (endpoint (config self) ++ "/api/llm/guard")
                   (GuardJson input_text (default ∅ context))
                   (api_key_header self) (timeout (config self));
     raise_for_status response;;
     response_json response)
    (fun e =>
       (if debug (config self)
        then print ("[Guardial SDK] LLM Guard failed: " ++ exn_str e)
        else ret tt);;
       ret (fallback false e)).

(** ** The global client *)

Definition read_client : M (option GuardialClient) :=
  fun w => (Ok (_client w), w).
Definition write_client (c : GuardialClient) : M unit :=
  fun w => (Ok tt, set_client (Some c) w).

(** [get_client] *)
Definition get_client (config : option GuardialConfig) : M GuardialClient :=
  cur ← read_client;
  match cur with
  | None => c ← GuardialClient_init config; write_client c;; ret c
  | Some c => ret c
  end.

(** [get_client] statement by statement, as a thread runs it: another
    thread may run between two statements.  A call is at one of these
    points; the construction [GuardialClient(config)] is taken as one
    step. *)
Inductive GetClientAt : Type :=
| AtTest (config : option GuardialConfig)      (* before [if _client is None] *)
| AtConstruct (config : option GuardialConfig) (* the test was true *)
| AtAssign (c : GuardialClient)                (* built, not yet stored *)
| AtReturn                                     (* before [return _client] *)
| Returned (c : option GuardialClient)
| Failed (e : Exn).

Definition get_client_step (pc : GetClientAt) (w : World)
    : GetClientAt * World :=
  match pc with
  | AtTest config =>
      match _client w with
      | None => (AtConstruct config, w)
      | Some _ => (AtReturn, w)
      end
  | AtConstruct config =>
      match run (GuardialClient_init config) w with
      | (Ok c, w') => (AtAssign c, w')
      | (Raise e, w') => (Failed e, w')
      end
  | AtAssign c => (AtReturn, set_client (Some c) w)
  | AtReturn => (Returned (_client w), w)
  | Returned c => (Returned c, w)
  | Failed e => (Failed e, w)
  end.

(** A call run on its own for [n] steps. *)
Fixpoint get_client_steps (n : nat) (pc : GetClientAt) (w : World)
    : GetClientAt * World :=
  match n with
  | O => (pc, w)
  | S n' => let '(pc', w') := get_client_step pc w in get_client_steps n' pc' w'
  end.

(** Two threads, each in a call of [get_client], and a schedule that says
    which of them takes the next step. *)
Inductive Turn : Type := ThreadA | ThreadB.

Definition take_turn (t : Turn) (s : GetClientAt * GetClientAt * World)
    : GetClientAt * GetClientAt * World :=
  let '(a, b, w) := s in
  match t with
  | ThreadA => let '(a', w') := get_client_step a w in (a', b, w')
  | ThreadB => let '(b', w') := get_client_step b w in (a, b', w')
  end.

Definition run_schedule (ts : list Turn)
    (s : GetClientAt * GetClientAt * World)
    : GetClientAt * GetClientAt * World :=
  fold_left (fun s t => take_turn t s) ts s.

(** ** The adapters *)

(** A handler: any computation of the positional and keyword arguments. *)
Definition Handler (R : Type) : Type :=
  list Arg -> list (string * Arg) -> M R.

(** Calling a handler records the call and runs it. *)
Definition invoke {R} (func : Handler R) (args : list Arg)
    (kwargs : list (string * Arg)) : M R :=
  fun w => func args kwargs (set_calls (calls w ++ [mkCall args kwargs]) w).

(** [analysis.get('allowed', True)]; only a [dict] has [get], and the
    [AttributeError] of any other value names its type. *)
Definition analysis_get (analysis : pyval) (key : string) (dflt : pyval)
    : M pyval :=
  match analysis with
  | PDict d => ret (default dflt (d !! key))
  | _ => raise (AttributeError ("'" ++ Py.type_name analysis
                                  ++ "' object has no attribute 'get'"))
  end.

Definition blocked_msg : string := "Request blocked by security policy".

(** The first positional argument with [method] and [url] attributes. *)
Fixpoint find_request (args : list Arg) : option AsgiRequest :=
  match args with
  | [] => None
  | ArgRequest r :: _ => Some r
  | ArgValue _ :: rest => find_request rest
  end.

(** [request.client.host] *)
Definition asgi_client_host (request : AsgiRequest) : M string :=
  match a_client request with
  | Some host => ret host
  | None => raise (AttributeError "'NoneType' object has no attribute 'host'")
  end.

(** [protect.async_wrapper]; a request object found among the arguments
    is truthy, so [if request:] is the test that one was found. *)
Definition async_wrapper {R} (func : Handler R) (args : list Arg)
    (kwargs : list (string * Arg)) : M R :=
  client ← get_client None;
  match find_request args with
  | Some request =>
      source_ip ← asgi_client_host request;
      analysis ← analyze_event client (a_method request) (a_path request)
                   source_ip (a_user_agent request) (Some (a_headers request))
                   (Some (a_query request)) (Some (a_body request));
      allowed ← analysis_get analysis "allowed" (PBool true);
      if negb (Py.truthy allowed)
      then raise (FastAPIHTTPException 403 blocked_msg)
      else ret tt
  | None => ret tt
  end;;
  invoke func args kwargs.

(** [protect.sync_wrapper]; [request] is what Flask's request proxy is
    bound to, [None] outside a request context (the proxy is then falsy). *)
Definition sync_wrapper {R} (request : option FlaskRequest) (func : Handler R)
    (args : list Arg) (kwargs : list (string * Arg)) : M R :=
  client ← get_client None;
  match request with
  | Some request =>
      analysis ← analyze_event client (f_method request) (f_path request)
                   (PyStr.or_else (f_remote_addr request) "unknown")
                   (f_user_agent request) (Some (f_headers request))
                   (Some (f_query_string request)) (Some (f_data request));
      allowed ← analysis_get analysis "allowed" (PBool true);
      if negb (Py.truthy allowed)
      then raise (WerkzeugAbort 403 blocked_msg)
      else ret tt
  | None => ret tt
  end;;
  invoke func args kwargs.

(** [protect]: [inspect.iscoroutinefunction(func)] picks the wrapper. *)
Definition protect {R} (iscoroutinefunction : bool)
    (request : option FlaskRequest) (func : Handler R) : Handler R :=
  if iscoroutinefunction then async_wrapper func
  else sync_wrapper request func.

(** A response object of the host framework. *)
Record HttpResponse : Type := mkHttp {
  content : string;
  status_code : Z;
  media_type : string
}.

Definition dquote : string := String "034"%char EmptyString.

(** [json.dumps] of the one-key dictionary the middleware rejects with. *)
Definition json_dumps_error (msg : string) : string :=
  "{" ++ dquote ++ "error" ++ dquote ++ ": " ++ dquote ++ msg ++ dquote ++ "}".

Definition forbidden_response : HttpResponse :=
  mkHttp (json_dumps_error blocked_msg) 403 "application/json".

(** [call_next(request)]: the rest of the pipeline, called with the
    request as its one argument. *)
Definition call_pipeline (call_next : Handler HttpResponse)
    (request : AsgiRequest) : M HttpResponse :=
  invoke call_next [ArgRequest request] [].

Definition fastapi_exclude_paths : list string :=
  ["/health"; "/docs"; "/openapi.json"].

(** [fastapi_middleware.guardial_middleware], closed over [client]. *)
Definition guardial_middleware (client : GuardialClient)
    (request : AsgiRequest) (call_next : Handler HttpResponse)
    : M HttpResponse :=
  if existsb (PyStr.startswith (a_path request)) fastapi_exclude_paths
  then call_pipeline call_next request
  else
    source_ip ← asgi_client_host request;
    analysis ← analyze_event client (a_method request) (a_path request)
                 source_ip (a_user_agent request) (Some (a_headers request))
                 (Some (a_query request)) (Some (a_body request));
    allowed ← analysis_get analysis "allowed" (PBool true);
    if negb (Py.truthy allowed)
    then ret forbidden_response
    else call_pipeline call_next request.

(** [fastapi_middleware]: the client is fetched once, at registration. *)
Definition fastapi_middleware (config : option GuardialConfig)
    : M (AsgiRequest -> Handler HttpResponse -> M HttpResponse) :=
  client ← get_client config;
  ret (guardial_middleware client).

Definition flask_exclude_paths : list string := ["/health"; "/static"].

(** [flask_middleware.guardial_before_request], closed over [client];
    returning (here [tt], Python's [None]) lets Flask go on. *)
Definition guardial_before_request (client : GuardialClient)
    (request : FlaskRequest) : M unit :=
  if existsb (PyStr.startswith (f_path request)) flask_exclude_paths
  then ret tt
  else
    analysis ← analyze_event client (f_method request) (f_path request)
                 (PyStr.or_else (f_remote_addr request) "unknown")
                 (f_user_agent request) (Some (f_headers request))
                 (Some (f_query_string request)) (Some (f_data request));
    allowed ← analysis_get analysis "allowed" (PBool true);
    if negb (Py.truthy allowed)
    then raise (WerkzeugAbort 403 blocked_msg)
    else ret tt.

(** [flask_middleware] *)
Definition flask_middleware (config : option GuardialConfig)
    : M (FlaskRequest -> M unit) :=
  client ← get_client config;
  ret (guardial_before_request client).

(** Flask's dispatch of one request through a before-request hook: the
    view function runs when the hook returned [None], and an abort in the
    hook ends the request before the view. *)
Definition flask_dispatch {R} (hook : FlaskRequest -> M unit)
    (request : FlaskRequest) (view : Handler R) (args : list Arg)
    (kwargs : list (string * Arg)) : M R :=
  hook request;;
  invoke view args kwargs.

(** ** Notions the properties are stated with *)

(** What the body of the [try] comes to, given what [requests.post] met. *)
Definition attempt (o : PostOutcome) : Outcome pyval :=
  match o with
  | Raises e => Raise e
  | Responds r =>
      if PyStr.truthy (http_error_msg r)
      then Raise (RequestException HTTPError (http_error_msg r))
      else match resp_body r with
           | JsonValue v => Ok v
           | JsonMalformed msg => Raise (RequestException JSONDecodeError msg)
           end
  end.

(** The world after the [except] branch: one more line when debugging. *)
Definition debug_log (self : GuardialClient) (line : string) (w : World) : World :=
  if debug (config self) then set_stdout (stdout w ++ [line]) w else w.

Definition event_post (self : GuardialClient) (ev : Event) : PostCall :=
  mkPost (endpoint (config self) ++ "/api/events") (EventJson ev)
         (api_key_header self) (timeout (config self)).

Definition guard_post (self : GuardialClient) (input : string)
    (context : gmap string pyval) : PostCall :=
  mkPost (endpoint (config self) ++ "/api/llm/guard") (GuardJson input context)
         (api_key_header self) (timeout (config self)).

(** The remote-call failures the [try] of an analysis call can meet:
    [requests.post] raises an [Exception] (network error, timeout), the
    status is a client or server error (4xx, 5xx), or the body is not
    JSON. *)
Definition remote_call_fails (o : PostOutcome) : Prop :=
  match o with
  | Raises e => is_Exception e = true
  | Responds r =>
      400 <= resp_status r < 600 \/ exists msg, resp_body r = JsonMalformed msg
  end.

(** A status outside 200..299. *)
Definition non_2xx (r : Response) : Prop := ~ (200 <= resp_status r < 300).

(** The value under [key] when [v] is a dictionary that has the key. *)
Definition dict_lookup (v : pyval) (key : string) : option pyval :=
  match v with
  | PDict d => d !! key
  | _ => None
  end.

(** The analysis call each adapter makes for a request. *)
Definition asgi_analysis (client : GuardialClient) (request : AsgiRequest)
    (source_ip : string) : M pyval :=
  analyze_event client (a_method request) (a_path request) source_ip
                (a_user_agent request) (Some (a_headers request))
                (Some (a_query request)) (Some (a_body request)).

Definition flask_analysis (client : GuardialClient) (request : FlaskRequest)
    : M pyval :=
  analyze_event client (f_method request) (f_path request)
                (PyStr.or_else (f_remote_addr request) "unknown")
                (f_user_agent request) (Some (f_headers request))
                (Some (f_query_string request)) (Some (f_data request)).

(** The flag the adapters read from a result dictionary:
    [not analysis.get('allowed', True)] is false exactly when this is
    true. *)
Definition lets_through (d : gmap string pyval) : bool :=
  Py.truthy (default (PBool true) (d !! "allowed")).

(** The resolution order of the specification: the explicit value when one
    is given, otherwise the environment's, otherwise the default. *)
Definition resolve_spec {A} (explicit env : option A) (dflt : A) : A :=
  match explicit with
  | Some v => v
  | None => default dflt env
  end.

(** What [GUARDIAL_DEBUG] says, when set: true for any casing of [true]. *)
Definition env_flag (w : World) : option bool :=
  (fun v => bool_decide (PyStr.lower v = "true")) <$> (environ w !! "GUARDIAL_DEBUG").

(** An explicit string counts as given to [or] only when it is not empty,
    an explicit flag only when it is [True]. *)
Definition given_str (x : option string) : option string :=
  match x with
  | Some s => if PyStr.truthy s then Some s else None
  | None => None
  end.

Definition given_flag (x : option bool) : option bool :=
  match x with
  | Some true => Some true
  | _ => None
  end.

(** One analysis call of a running process, the way the wrappers of
    [protect] make it: fetch the global client, then ask it. *)
Definition analysis_call (method path source_ip : string)
    (user_agent : option string) (headers : option (gmap string string))
    (query_params request_body : option string) : M pyval :=
  client ← get_client None;
  analyze_event client method path source_ip user_agent headers
                query_params request_body.

(** [later w w']: the process in world [w] reaches [w'] by analysis
    calls. *)
Inductive later (w : World) : World -> Prop :=
| later_now : later w w
| later_call w' method path ip ua hs q body :
    later w w' ->
    later w (snd (run (analysis_call method path ip ua hs q body) w')).

(** The post is an event with session identifier [sid]. *)
Definition carries_session (sid : string) (p : PostCall) : Prop :=
  exists ev, post_json p = EventJson ev /\ ev_session_id ev = sid.

(** The two readings a session identifier is made of. *)
Definition start_second (w : World) : Z := time_src w (time_reads w).
Definition uuid_prefix (w : World) : string :=
  PyStr.slice_to 9 (uuid_src w (uuid_reads w)).

Fixpoint no_underscore (s : string) : Prop :=
  match s with
  | EmptyString => True
  | String c s' => c <> "_"%char /\ no_underscore s'
  end.

(** [h] is the ASCII lower-case name [a] up to case, read off character
    by character and without [str.lower]: each character of [a] stands in
    [h] as itself, or, when it is a letter, as its capital (32 below), or,
    when it is [k], as the Kelvin sign U+212A (bytes E2 84 AA). *)
Fixpoint equal_ignoring_case (h a : string) : Prop :=
  match a with
  | EmptyString => h = EmptyString
  | String d a' =>
      (exists h', h = String d h' /\ equal_ignoring_case h' a')
      \/ (exists h', (97 <= N_of_ascii d <= 122)%N
                     /\ h = String (ascii_of_N (N_of_ascii d - 32)) h'
                     /\ equal_ignoring_case h' a')
      \/ (exists h', d = "k"%char
                     /\ h = String "226" (String "132" (String "170" h'))
                     /\ equal_ignoring_case h' a')
  end.

(** A name of lower-case ASCII letters and hyphens. *)
Fixpoint plain_name (a : string) : Prop :=
  match a with
  | EmptyString => True
  | String d a' =>
      ((97 <= N_of_ascii d <= 122)%N \/ N_of_ascii d = 45%N) /\ plain_name a'
  end.

(** ** Sample inputs *)

Module Sample.

Definition cfg : GuardialConfig :=
  mkConfig "sk_live_1" "https://api.guardial.in" "acme" false 30
           "session_1700000000_123456789".

Definition cfg_debug : GuardialConfig :=
  mkConfig "sk_live_1" "https://api.guardial.in" "acme" true 30
           "session_1700000000_123456789".

Definition client : GuardialClient := mkClient cfg.

(** A freshly started process: nothing posted or printed, no client
    yet; [env] is the environment and [o] what every post meets. *)
Definition fresh (env : gmap string string) (o : PostOutcome) : World :=
  mkWorld env (fun _ => 1700000000) 0
          (fun _ => "123456789abc4def8123456789abcdef") 0
          (fun _ => o) [] [] None [].

Definition env_key : gmap string string := {[ "GUARDIAL_API_KEY" := "sk_live_1" ]}.

(** A process whose global client is already there. *)
Definition started (o : PostOutcome) : World :=
  set_client (Some client) (fresh env_key o).

Definition answer (status : Z) (reason : string) (v : pyval) : PostOutcome :=
  Responds (mkResponse status reason "https://api.guardial.in/api/events"
                       (JsonValue v)).

Definition deny_dict : gmap string pyval := {[ "allowed" := PBool false ]}.
Definition allow_dict : gmap string pyval := {[ "allowed" := PBool true ]}.
Definition bare_dict : gmap string pyval := {[ "risk_score" := PInt 3 ]}.
Definition deny : pyval := PDict deny_dict.
Definition allow : pyval := PDict allow_dict.
Definition bare : pyval := PDict bare_dict.

Definition asgi_req : AsgiRequest :=
  mkAsgi "POST" "/login" "next=home" (Some "10.0.0.1") (Some "curl/8.0")
         {[ "authorization" := "Bearer t" ]} "user=a".

Definition flask_req : FlaskRequest :=
  mkFlask "POST" "/login" (Some "10.0.0.1") (Some "curl/8.0")
          {[ "Authorization" := "Bearer t" ]} "next=home" "user=a".

(** A handler that returns a value and a pipeline that returns a
    response, neither doing anything else. *)
Definition handler : Handler pyval := fun _ _ => ret (PStr "handled").
Definition page : HttpResponse := mkHttp "<html></html>" 200 "text/html".
Definition pipeline : Handler HttpResponse := fun _ _ => ret page.

End Sample.

Module SampleConfig.

(** Every variable set in the environment, every argument passed. *)
Definition env_full : gmap string string :=
  <["GUARDIAL_API_KEY" := "sk_env"]>
    (<["GUARDIAL_ENDPOINT" := "https://env.guardial.in"]>
       (<["GUARDIAL_CUSTOMER_ID" := "env_customer"]>
          {[ "GUARDIAL_DEBUG" := "TRUE" ]})).

Definition args_full : ConfigArgs :=
  mkArgs (Some "sk_arg") (Some "https://arg.guardial.in") (Some "acme")
         (Some true) (Some 5).

Definition world_full : World :=
  Sample.fresh env_full (Sample.answer 200 "OK" Sample.allow).

Definition cfg_full : GuardialConfig :=
  mkConfig "sk_arg" "https://arg.guardial.in" "acme" true 5
           "session_1700000000_123456789".

(** [debug=False] and [endpoint=''] passed, both variables set. *)
Definition args_falsy : ConfigArgs :=
  mkArgs (Some "sk_arg") (Some "") None (Some false) None.

Definition cfg_falsy : GuardialConfig :=
  mkConfig "sk_arg" "https://env.guardial.in" "env_customer" true 30
           "session_1700000000_123456789".

Definition after_init (w : World) : World :=
  set_uuid_reads 1 (set_time_reads 1 w).

End SampleConfig.

Module SampleClient.

(** The client the first [get_client()] of a fresh process builds when
    only [GUARDIAL_API_KEY] is set. *)
Definition first_cfg : GuardialConfig :=
  mkConfig "sk_live_1" "https://api.guardial.in" "default" false 30
           "session_1700000000_123456789".

Definition first : GuardialClient := mkClient first_cfg.

Definition before (o : PostOutcome) : World :=
  Sample.fresh Sample.env_key o.

Definition after (o : PostOutcome) : World :=
  set_client (Some first) (SampleConfig.after_init (before o)).

Definition ok_allow : PostOutcome := Sample.answer 200 "OK" Sample.allow.

End SampleClient.

Module SampleRun.

Definition ok_deny : PostOutcome := Sample.answer 200 "OK" Sample.deny.
Definition ok_bare : PostOutcome := Sample.answer 200 "OK" Sample.bare.

(** The world after the client analysed the sample request. *)
Definition analysed_asgi (o : PostOutcome) : World :=
  snd (run (asgi_analysis SampleClient.first Sample.asgi_req "10.0.0.1")
           (SampleClient.after o)).

Definition analysed_flask (o : PostOutcome) : World :=
  snd (run (flask_analysis SampleClient.first Sample.flask_req)
           (SampleClient.after o)).

Definition args : list Arg := [ArgValue (PInt 7); ArgRequest Sample.asgi_req].
Definition kwargs : list (string * Arg) := [("user_id", ArgValue (PInt 42))].

End SampleRun.

Module SamplePaths.


Definition flask_at (path : string) : FlaskRequest :=
  mkFlask "GET" path (Some "10.0.0.1") None ∅ "" "".

End SamplePaths.

Module SampleSession.

(** Two processes started in the same second whose UUIDs differ, but not
    in the first nine hex digits. *)
Definition process_a : World :=
  mkWorld Sample.env_key (fun _ => 1700000000) 0
          (fun _ => "123456789abc4def8123456789abcdef") 0
          (fun _ => SampleClient.ok_allow) [] [] None [].

Definition process_b : World :=
  mkWorld Sample.env_key (fun _ => 1700000000) 0
          (fun _ => "123456789fff4abc9fedcba987654321") 0
          (fun _ => SampleClient.ok_allow) [] [] None [].

(** A process started one second later than [process_a]. *)
Definition process_c : World :=
  mkWorld Sample.env_key (fun _ => 1700000001) 0
          (fun _ => "123456789abc4def8123456789abcdef") 0
          (fun _ => SampleClient.ok_allow) [] [] None [].

(** The clients the first [get_client()] builds in [process_b] and in
    [process_c]. *)
Definition client_b : GuardialClient :=
  mkClient (mkConfig "sk_live_1" "https://api.guardial.in" "default" false 30
                     "session_1700000000_123456789").

Definition client_c : GuardialClient :=
  mkClient (mkConfig "sk_live_1" "https://api.guardial.in" "default" false 30
                     "session_1700000001_123456789").

(** The sample process after two analysis calls. *)
Definition after_two : World :=
  snd (run (analysis_call "GET" "/b" "10.0.0.2" None None None None)
           (snd (run (analysis_call "GET" "/a" "10.0.0.1" None None None None)
                     (SampleClient.after SampleClient.ok_allow)))).

End SampleSession.

Module SampleThreads.

(** A fresh process with the key set, whose first two UUIDs differ. *)
Definition world : World :=
  mkWorld Sample.env_key (fun _ => 1700000000) 0
          (fun n => match n with
                    | O => "123456789abc4def8123456789abcdef"
                    | S _ => "fedcba987654321f8123456789abcdef"
                    end) 0
          (fun _ => SampleClient.ok_allow) [] [] None [].

(** Both threads test [_client] before either has stored a client. *)
Definition overlapping : list Turn :=
  [ThreadA; ThreadB; ThreadA; ThreadB; ThreadA; ThreadA; ThreadB; ThreadB].

(** The first call returns before the second begins. *)
Definition one_after_the_other : list Turn :=
  [ThreadA; ThreadA; ThreadA; ThreadA; ThreadB; ThreadB; ThreadB; ThreadB].

Definition client_a : GuardialClient :=
  mkClient (mkConfig "sk_live_1" "https://api.guardial.in" "default" false 30
                     "session_1700000000_123456789").

Definition client_b : GuardialClient :=
  mkClient (mkConfig "sk_live_1" "https://api.guardial.in" "default" false 30
                     "session_1700000000_fedcba987").

(** The process after the overlapping calls. *)
Definition raced : World :=
  set_client (Some client_b) (set_uuid_reads 2 (set_time_reads 2 world)).

End SampleThreads.

Module SampleAnswers.

(** Results whose flag is no boolean: the string ["false"], [None] and
    [-0.0]. *)
Definition quoted_false : gmap string pyval := {[ "allowed" := PStr "false" ]}.
Definition null_flag : gmap string pyval := {[ "allowed" := PNone ]}.
Definition zero_flag : gmap string pyval :=
  {[ "allowed" := PFloat PrimFloat.neg_zero ]}.

Definition timed_out : PostOutcome :=
  Raises (RequestException Timeout "timed out").

End SampleAnswers.

(** No positional argument is a request. *)
Definition no_request (args : list Arg) : Prop :=
  Forall (fun a => forall r, a <> ArgRequest r) args.

Module SampleNoKey.

(** A fresh process without [GUARDIAL_API_KEY]. *)
Definition world : World := Sample.fresh ∅ SampleRun.ok_deny.

(** The same after a configuration failed to be constructed. *)
Definition failed : World := SampleConfig.after_init world.

End SampleNoKey.

Module SampleEmptyEnv.

(** [GUARDIAL_ENDPOINT] and [GUARDIAL_CUSTOMER_ID] are set, but empty. *)
Definition env : gmap string string :=
  <["GUARDIAL_API_KEY" := "sk_live_1"]>
    (<["GUARDIAL_ENDPOINT" := ""]> {[ "GUARDIAL_CUSTOMER_ID" := "" ]}).

Definition world : World := Sample.fresh env SampleRun.ok_deny.

Definition cfg : GuardialConfig :=
  mkConfig "sk_live_1" "" "" false 30 "session_1700000000_123456789".

(** [GUARDIAL_API_KEY] is set, but empty. *)
Definition keyless : World :=
  Sample.fresh {[ "GUARDIAL_API_KEY" := "" ]} SampleRun.ok_deny.

End SampleEmptyEnv.

(** ** [health_check] and [test]

    [requests.get] is a parameter: any computation that, given the URL and
    the timeout, returns a response or raises. *)

(** The dictionary [health_check] returns from its [except] branch. *)
Definition health_fallback (e : Exn) : pyval :=
  PDict (<["success" := PBool false]> {[ "error" := PStr (exn_str e) ]}).

(** [GuardialClient.health_check] *)
Definition health_check (requests_get : string -> Z -> M Response)
    (self : GuardialClient) : M pyval :=
  try_except
    (response ← requests_get (endpoint (config self) ++ "/health")
                   (timeout (config self));
     raise_for_status response;;
     response_json response)
    (fun e => ret (health_fallback e)).

(** [p in s] for two strings: [p] occurs in [s]. *)
Fixpoint str_contains (s p : string) : bool :=
  PyStr.startswith s p
  || match s with
     | EmptyString => false
     | String _ s' => str_contains s' p
     end.

(** [key in v] for a string [key]: a key of a dictionary, an element of a
    list, a substring of a string; [None], booleans and numbers are not
    iterable, and [in] raises a [TypeError] that names the type. *)
Definition py_in (key : string) (v : pyval) : M bool :=
  match v with
  | PDict d => ret (bool_decide (is_Some (d !! key)))
  | PList l =>
      ret (existsb (fun x => match x with
                             | PStr s => bool_decide (s = key)
                             | _ => false
                             end) l)
  | PStr s => ret (str_contains s key)
  | PNone | PBool _ | PInt _ | PFloat _ =>
      raise (TypeError ("argument of type '" ++ Py.type_name v
                          ++ "' is not iterable"))
  end.

(** [GuardialClient.test] *)
Definition test (requests_get : string -> Z -> M Response)
    (self : GuardialClient) : M pyval :=
  health ← health_check requests_get self;
  has_error ← py_in "error" health;
  ret (PDict (<["success" := PBool (negb has_error)]>
                (<["endpoint" := PStr (endpoint (config self))]>
                   (<["customer_id" := PStr (customer_id (config self))]>
                      {[ "health" := health ]})))).

Module SampleHealth.

(** A service that is down, one that is up, one that answers [null]. *)
Definition down : string -> Z -> M Response :=
  fun _ _ => raise (RequestException ConnectionError "Connection refused").

Definition up_dict : gmap string pyval := {[ "status" := PStr "ok" ]}.

Definition up : string -> Z -> M Response :=
  fun url _ => ret (mkResponse 200 "OK" url (JsonValue (PDict up_dict))).

Definition says_null : string -> Z -> M Response :=
  fun url _ => ret (mkResponse 200 "OK" url (JsonValue PNone)).

Definition world : World := SampleClient.after SampleRun.ok_deny.

End SampleHealth.

(** * Properties *)

(** ** Running computations *)

Lemma run_bind {A B} (m : M A) (k : A -> M B) (w : World) :
  run (m ≫= k) w =
  match run m w with
  | (Ok a, w') => run (k a) w'
  | (Raise e, w') => (Raise e, w')
  end.
Proof. reflexivity. Qed.

Lemma run_bind_ok {A B} (m : M A) (k : A -> M B) (w w' : World) (a : A) :
  run m w = (Ok a, w') -> run (m ≫= k) w = run (k a) w'.
Proof. intros H. rewrite run_bind, H. reflexivity. Qed.

(** ** Lower-casing *)

Lemma lower_unfold (s : string) :
  PyStr.lower s =
  match s with
  | EmptyString => EmptyString
  | String c1 s1 =>
      let n1 := N_of_ascii c1 in
      match s1 with
      | EmptyString => String (PyStr.lower_char c1) EmptyString
      | String c2 s2 =>
          let n2 := N_of_ascii c2 in
          if ((n1 =? 195) && (128 <=? n2) && (n2 <=? 158) && negb (n2 =? 151))%N
          then String c1 (String (ascii_of_N (n2 + 32)) (PyStr.lower s2))
          else if ((n1 =? 196) && (n2 =? 176))%N
          then String "i" (String "204" (String "135" (PyStr.lower s2)))
          else
            match s2 with
            | EmptyString => String (PyStr.lower_char c1) (PyStr.lower s1)
            | String c3 s3 =>
                if ((n1 =? 226) && (n2 =? 132) && (N_of_ascii c3 =? 170))%N
                then String "k" (PyStr.lower s3)
                else String (PyStr.lower_char c1) (PyStr.lower s1)
            end
      end
  end.
Proof. destruct s as [|c1 [|c2 [|c3 s3]]]; reflexivity. Qed.

Lemma N_of_ascii_lt (c : ascii) : (N_of_ascii c < 256)%N.
Proof. apply N_ascii_bounded. Qed.

Lemma ascii_of_code (c : ascii) (n : N) : N_of_ascii c = n -> c = ascii_of_N n.
Proof. intros <-. symmetry. apply ascii_N_embedding. Qed.

(** An ASCII character at the head is lower-cased on its own. *)
Lemma lower_ascii_head (c : ascii) (s : string) :
  (N_of_ascii c < 128)%N ->
  PyStr.lower (String c s) = String (PyStr.lower_char c) (PyStr.lower s).
Proof.
  intros Hc. rewrite (lower_unfold (String c s)). cbv zeta.
  destruct s as [|c2 [|c3 s3]]; [reflexivity|..];
    destruct (N.eqb_spec (N_of_ascii c) 195); try lia;
    destruct (N.eqb_spec (N_of_ascii c) 196); try lia;
    destruct (N.eqb_spec (N_of_ascii c) 226); try lia;
    reflexivity.
Qed.

Lemma lower_kelvin (s : string) :
  PyStr.lower (String "226" (String "132" (String "170" s)))
  = String "k" (PyStr.lower s).
Proof. reflexivity. Qed.

Lemma lower_char_high (c : ascii) :
  (128 <= N_of_ascii c)%N -> PyStr.lower_char c = c.
Proof.
  intros Hc. unfold PyStr.lower_char. cbv zeta.
  destruct (N.leb_spec (N_of_ascii c) 90); [lia|]. by rewrite andb_false_r.
Qed.

(** A character outside ASCII at the head gives an ASCII head only as the
    Kelvin sign or as U+0130. *)
Lemma lower_high_head (c1 : ascii) (s1 : string) (d : ascii) (t : string) :
  (128 <= N_of_ascii c1)%N -> (N_of_ascii d < 128)%N ->
  PyStr.lower (String c1 s1) = String d t ->
  (d = "k"%char /\ exists s', String c1 s1
                               = String "226" (String "132" (String "170" s'))
                             /\ PyStr.lower s' = t)
  \/ (exists s', t = String "204" (String "135" (PyStr.lower s'))).
Proof.
  intros Hc Hd. rewrite (lower_unfold (String c1 s1)). cbv zeta.
  assert (forall u, String (PyStr.lower_char c1) u = String d t -> False) as Hno.
  { rewrite (lower_char_high c1 Hc). intros u [= -> _]. lia. }
  destruct s1 as [|c2 s2]; [intros H; by destruct (Hno _ H)|].
  destruct (_ && _ && _ && _)%bool.
  { intros [= -> _]. lia. }
  destruct (_ && _)%bool eqn:Hi.
  { intros [= _ <-]. right. by eexists. }
  destruct s2 as [|c3 s3]; [intros H; by destruct (Hno _ H)|].
  destruct (_ && _ && _)%bool eqn:Hk; [|intros H; by destruct (Hno _ H)].
  apply andb_true_iff in Hk as [Hk H3]. apply andb_true_iff in Hk as [H1 H2].
  apply N.eqb_eq, ascii_of_code in H1, H2, H3. subst c1 c2 c3.
  intros [= <- <-]. left. split; [reflexivity|]. by eexists.
Qed.

Lemma lower_char_plain (c d : ascii) :
  ((97 <= N_of_ascii d <= 122)%N \/ N_of_ascii d = 45%N) ->
  PyStr.lower_char c = d <->
  c = d \/ ((97 <= N_of_ascii d <= 122)%N /\ c = ascii_of_N (N_of_ascii d - 32)).
Proof.
  intros Hd. unfold PyStr.lower_char. cbv zeta.
  pose proof (N_of_ascii_lt c) as Hc.
  destruct (N.leb_spec 65 (N_of_ascii c)), (N.leb_spec (N_of_ascii c) 90);
    cbn [andb].
  - split.
    + intros <-. right. rewrite N_ascii_embedding by lia.
      split; [lia|]. apply ascii_of_code. lia.
    + intros [->|[Hr ->]]; [lia|].
      rewrite N_ascii_embedding by lia.
      replace (N_of_ascii d - 32 + 32)%N with (N_of_ascii d) by lia.
      apply ascii_N_embedding.
  - split; [by left|]. intros [->|[Hr ->]]; [done|].
    rewrite N_ascii_embedding in * by lia. lia.
  - split; [by left|]. intros [->|[Hr ->]]; [done|].
    rewrite N_ascii_embedding in * by lia. lia.
  - lia.
Qed.

Lemma lower_empty (s : string) : PyStr.lower s = "" -> s = "".
Proof.
  rewrite lower_unfold. cbv zeta.
  destruct s as [|c1 [|c2 [|c3 s3]]]; [done|done|..];
    repeat case_match; done.
Qed.

(** On a plain name, equality after [str.lower] is equality up to case. *)
Lemma lower_is_equal_ignoring_case (a h : string) :
  plain_name a -> PyStr.lower h = a <-> equal_ignoring_case h a.
Proof.
  revert h. induction a as [|d a IH]; intros h Ha.
  - cbn. split; [apply lower_empty|by intros ->].
  - destruct Ha as [Hd Ha]. cbn [equal_ignoring_case].
    assert (N_of_ascii d < 128)%N as Hd128 by lia.
    split.
    + intros Hl. destruct h as [|c1 s1]; [done|].
      destruct (N.lt_ge_cases (N_of_ascii c1) 128) as [Hc|Hc].
      * rewrite (lower_ascii_head c1 s1 Hc) in Hl. injection Hl as Hchar Hrest.
        apply IH in Hrest; [|done].
        apply (lower_char_plain c1 d Hd) in Hchar as [->|[Hr ->]].
        -- left. by exists s1.
        -- right. left. by exists s1.
      * destruct (lower_high_head c1 s1 d a Hc Hd128 Hl)
          as [(-> & s' & -> & Hrest)|(s' & ->)].
        -- right. right. exists s'. split; [done|]. split; [done|].
           by apply IH.
        -- destruct Ha as [[Hbad|Hbad] _]; cbn in Hbad; lia.
    + intros [(h' & -> & Hrest)|[(h' & Hr & -> & Hrest)|(h' & -> & -> & Hrest)]].
      * rewrite lower_ascii_head by done. f_equal; [|by apply IH].
        apply lower_char_plain; auto.
      * assert (N_of_ascii (ascii_of_N (N_of_ascii d - 32)) < 128)%N
          by (rewrite N_ascii_embedding; lia).
        rewrite lower_ascii_head by done. f_equal; [|by apply IH].
        apply lower_char_plain; auto.
      * rewrite lower_kelvin. f_equal. by apply IH.
Qed.

Lemma auth_headers_plain :
  plain_name "authorization" /\ plain_name "x-api-key"
  /\ plain_name "x-auth-token".
Proof. cbn. repeat split; lia. Qed.

(** ** Authentication headers *)

Lemma in_list_true (x : string) (xs : list string) :
  PyStr.in_list x xs = true <-> x ∈ xs.
Proof.
  unfold PyStr.in_list. rewrite existsb_exists. split.
  - intros (y & Hy & Heq). apply bool_decide_eq_true in Heq. subst.
    by apply list_elem_of_In.
  - intros Hx. exists x. split; [by apply list_elem_of_In|].
    by apply bool_decide_eq_true.
Qed.

Lemma has_auth_headers_true (headers : gmap string string) :
  _has_auth_headers headers = true <->
  exists h, h ∈ dom headers /\ PyStr.lower h ∈ auth_headers.
Proof.
  unfold _has_auth_headers. rewrite existsb_exists. split.
  - intros (h & Hin & Hh). exists h. split; [|by apply in_list_true].
    apply list_elem_of_In, list_elem_of_fmap in Hin as ([k v] & -> & Hkv).
    apply elem_of_map_to_list in Hkv. apply elem_of_dom. by exists v.
  - intros (h & Hdom & Hh). exists h. split; [|by apply in_list_true].
    apply elem_of_dom in Hdom as [v Hv].
    apply list_elem_of_In, list_elem_of_fmap. exists (h, v). split; [done|].
    by apply elem_of_map_to_list.
Qed.

Lemma auth_headers_cases (s : string) :
  s ∈ auth_headers <->
  s = "authorization" \/ s = "x-api-key" \/ s = "x-auth-token".
Proof.
  unfold auth_headers. rewrite !elem_of_cons, elem_of_nil. tauto.
Qed.

Lemma has_auth_headers_dom (h1 h2 : gmap string string) :
  dom h1 = dom h2 -> _has_auth_headers h1 = _has_auth_headers h2.
Proof.
  intros Hdom. apply eq_true_iff_eq.
  rewrite !has_auth_headers_true, Hdom. reflexivity.
Qed.

(** ** The two analysis calls *)

Ltac by_debug self := destruct (debug (config self)); reflexivity.

Lemma analyze_event_run self method path ip ua hs q body (w : World) :
  run (analyze_event self method path ip ua hs q body) w =
  let w1 := set_posts
              (posts w ++ [event_post self
                             (build_event self method path ip ua hs q body)]) w in
  match attempt (remote w (length (posts w))) with
  | Ok v => (Ok v, w1)
  | Raise e =>
      if is_Exception e
      then (Ok (fallback true e),
            debug_log self ("[Guardial SDK] Analysis failed: " ++ exn_str e) w1)
      else (Raise e, w1)
  end.
Proof.
  unfold analyze_event, try_except, run, debug_log, event_post.
  unfold mbind, M_bind, bind, requests_post, attempt, raise_for_status,
    response_json.
  destruct (remote w (length (posts w))) as [e|r]; simpl.
  - destruct (is_Exception e); [|reflexivity]. by_debug self.
  - destruct (PyStr.truthy (http_error_msg r)); simpl; [by_debug self|].
    destruct (resp_body r); simpl; [reflexivity|]. by_debug self.
Qed.

Lemma prompt_guard_run self input context (w : World) :
  run (prompt_guard self input context) w =
  let w1 := set_posts
              (posts w ++ [guard_post self input (default ∅ context)]) w in
  match attempt (remote w (length (posts w))) with
  | Ok v => (Ok v, w1)
  | Raise e =>
      if is_Exception e
      then (Ok (fallback false e),
            debug_log self ("[Guardial SDK] LLM Guard failed: " ++ exn_str e) w1)
      else (Raise e, w1)
  end.
Proof.
  unfold prompt_guard, try_except, run, debug_log, guard_post.
  unfold mbind, M_bind, bind, requests_post, attempt, raise_for_status,
    response_json.
  destruct (remote w (length (posts w))) as [e|r]; simpl.
  - destruct (is_Exception e); [|reflexivity]. by_debug self.
  - destruct (PyStr.truthy (http_error_msg r)); simpl; [by_debug self|].
    destruct (resp_body r); simpl; [reflexivity|]. by_debug self.
Qed.

(** Every call of [analyze_event] makes exactly one [requests.post], with
    the event it built, and touches nothing but the list of posts and
    standard output. *)
Lemma analyze_event_posts self method path ip ua hs q body (w : World) :
  posts (snd (run (analyze_event self method path ip ua hs q body) w))
  = (posts w ++ [event_post self
                   (build_event self method path ip ua hs q body)])%list.
Proof.
  rewrite analyze_event_run. cbv zeta.
  destruct (attempt _) as [v|e]; [reflexivity|].
  destruct (is_Exception e); [|reflexivity].
  unfold debug_log. destruct (debug (config self)); reflexivity.
Qed.

Lemma analyze_event_frame self method path ip ua hs q body (w : World) :
  let w' := snd (run (analyze_event self method path ip ua hs q body) w) in
  environ w' = environ w /\ time_reads w' = time_reads w
  /\ uuid_reads w' = uuid_reads w /\ _client w' = _client w
  /\ calls w' = calls w /\ remote w' = remote w.
Proof.
  rewrite analyze_event_run. cbv zeta.
  destruct (attempt _) as [v|e]; [done|].
  destruct (is_Exception e); [|done].
  unfold debug_log. by destruct (debug (config self)).
Qed.

Example has_auth_title_case :
  _has_auth_headers {[ "Authorization" := "Bearer t" ]} = true.
Proof. vm_compute. reflexivity. Qed.

Example has_auth_upper_case :
  _has_auth_headers (<["Accept" := "*"]> {[ "X-API-KEY" := "" ]}) = true.
Proof. vm_compute. reflexivity. Qed.

Example has_auth_ignores_values :
  _has_auth_headers {[ "Cookie" := "authorization" ]} = false.
Proof. vm_compute. reflexivity. Qed.

Lemma has_auth_headers_insert (h v : string) (headers : gmap string string) :
  PyStr.in_list (PyStr.lower h) auth_headers = true ->
  _has_auth_headers (<[h := v]> headers) = true.
Proof.
  intros Hh. apply has_auth_headers_true. exists h. split.
  - apply elem_of_dom. exists v. apply lookup_insert_eq.
  - by apply in_list_true.
Qed.

Lemma has_auth_headers_singleton (h v : string) :
  _has_auth_headers {[ h := v ]} = PyStr.in_list (PyStr.lower h) auth_headers.
Proof.
  unfold _has_auth_headers. rewrite map_to_list_singleton. cbn.
  by rewrite orb_false_r.
Qed.

(** C10. The [has_auth] flag of an event is true exactly when some header
    name equals [authorization], [x-api-key] or [x-auth-token] up to case,
    character by character: each letter of the name may stand as itself or
    as its capital (and a [k] also as the Kelvin sign U+212A, which
    [str.lower] folds to [k]).  So [Authorization], [AUTHORIZATION],
    [X-API-Key] and [X-Auth-Token] set the flag whatever their value and
    whatever else the map holds, while a name that only contains or
    resembles one of the three ([Cookie], [Proxy-Authorization],
    [authorization ] with a space, [x_api_key]) does not, whatever its
    value.  The flag depends on the header names only, never on the
    values; it is false for an empty header map and for no header map at
    all; and it is the flag [analyze_event] puts in the payload it
    posts. *)
Theorem has_auth_iff_auth_header_name (headers : gmap string string) :
  (_has_auth_headers headers = true <->
   exists h, h ∈ dom headers /\
     (equal_ignoring_case h "authorization"
      \/ equal_ignoring_case h "x-api-key"
      \/ equal_ignoring_case h "x-auth-token"))
  /\ (forall v : string,
        _has_auth_headers (<["authorization" := v]> headers) = true
        /\ _has_auth_headers (<["Authorization" := v]> headers) = true
        /\ _has_auth_headers (<["AUTHORIZATION" := v]> headers) = true
        /\ _has_auth_headers (<["x-api-key" := v]> headers) = true
        /\ _has_auth_headers (<["X-API-Key" := v]> headers) = true
        /\ _has_auth_headers (<["X-Auth-Token" := v]> headers) = true
        /\ _has_auth_headers
             (<[String "x" (String "-" (String "a" (String "p" (String "i"
                 (String "-" (String "226" (String "132" (String "170"
                    "ey")))))))) := v]> headers) = true)
  /\ (forall v : string,
        _has_auth_headers {[ "Cookie" := v ]} = false
        /\ _has_auth_headers {[ "Proxy-Authorization" := v ]} = false
        /\ _has_auth_headers {[ "authorization " := v ]} = false
        /\ _has_auth_headers {[ "x_api_key" := v ]} = false
        /\ _has_auth_headers {[ "X-Auth" := v ]} = false)
  /\ (forall headers' : gmap string string,
        dom headers' = dom headers ->
        _has_auth_headers headers' = _has_auth_headers headers)
  /\ _has_auth_headers ∅ = false
  /\ (forall self method path ip ua q body,
        ev_has_auth (build_event self method path ip ua (Some headers) q body)
          = _has_auth_headers headers
        /\ ev_has_auth (build_event self method path ip ua None q body) = false)
  /\ (forall self method path ip ua q body w,
        exists ev,
          posts (snd (run (analyze_event self method path ip ua (Some headers)
                                         q body) w))
            = (posts w ++ [event_post self ev])%list
          /\ ev_has_auth ev = _has_auth_headers headers).
Proof.
  destruct auth_headers_plain as (Pa & Pk & Pt).
  split; [|split; [|split; [|split; [|split; [|split]]]]].
  - rewrite has_auth_headers_true.
    split; intros (h & Hh & Ha); exists h; split; try done.
    + apply auth_headers_cases in Ha.
      rewrite !(lower_is_equal_ignoring_case _ h) in Ha by done. done.
    + apply auth_headers_cases.
      rewrite !(lower_is_equal_ignoring_case _ h) by done. done.
  - intros v. repeat split; apply has_auth_headers_insert; vm_compute;
      reflexivity.
  - intros v. rewrite !has_auth_headers_singleton.
    repeat split; vm_compute; reflexivity.
  - intros headers'. apply has_auth_headers_dom.
  - reflexivity.
  - intros. split; reflexivity.
  - intros. exists (build_event self method path ip ua (Some headers) q body).
    split; [apply analyze_event_posts|reflexivity].
Qed.

(** ** Remote-call failures *)

Lemma truthy_app_nonempty (s : string) (c : ascii) (t : string) :
  PyStr.truthy (s ++ String c t) = true.
Proof. destruct s; reflexivity. Qed.

Lemma http_error_msg_truthy (r : Response) :
  400 <= resp_status r < 600 -> PyStr.truthy (http_error_msg r) = true.
Proof.
  intros [Hlo Hhi]. unfold http_error_msg.
  destruct (Z.ltb_spec (resp_status r) 500) as [H5|H5].
  - replace (400 <=? resp_status r) with true by (symmetry; apply Z.leb_le; lia).
    cbn [andb]. apply truthy_app_nonempty.
  - rewrite andb_false_r.
    replace (500 <=? resp_status r) with true by (symmetry; apply Z.leb_le; lia).
    replace (resp_status r <? 600) with true by (symmetry; apply Z.ltb_lt; lia).
    cbn [andb]. apply truthy_app_nonempty.
Qed.

Lemma http_error_msg_empty (r : Response) :
  ~ (400 <= resp_status r < 600) -> http_error_msg r = "".
Proof.
  intros H. unfold http_error_msg.
  destruct (Z.leb_spec 400 (resp_status r)), (Z.ltb_spec (resp_status r) 500),
    (Z.leb_spec 500 (resp_status r)), (Z.ltb_spec (resp_status r) 600);
    cbn [andb]; try reflexivity; lia.
Qed.

(** A failing remote call makes the body of the [try] raise an
    [Exception]. *)
Lemma attempt_fails (o : PostOutcome) :
  remote_call_fails o ->
  exists e, attempt o = Raise e /\ is_Exception e = true.
Proof.
  destruct o as [e|r]; simpl.
  - intros He. by exists e.
  - intros [Hst|[msg Hmsg]].
    + rewrite (http_error_msg_truthy r Hst). by eexists.
    + destruct (PyStr.truthy (http_error_msg r)); [by eexists|].
      rewrite Hmsg. by eexists.
Qed.

Lemma fallback_fields (b : bool) (e : Exn) :
  dict_lookup (fallback b e) "allowed" = Some (PBool b)
  /\ dict_lookup (fallback b e) "error" = Some (PStr (exn_str e)).
Proof.
  unfold fallback, dict_lookup. split.
  - apply lookup_insert_eq.
  - rewrite lookup_insert_ne by done. apply lookup_singleton_eq.
Qed.

Example timeout_with_debug_prints :
  run (analyze_event (mkClient Sample.cfg_debug) "GET" "/" "10.0.0.1" None None
                     None None)
      (Sample.started (Raises (RequestException Timeout "Read timed out.")))
  = (Ok (fallback true (RequestException Timeout "Read timed out.")),
     set_stdout ["[Guardial SDK] Analysis failed: Read timed out."]
       (set_posts [event_post (mkClient Sample.cfg_debug)
                     (build_event (mkClient Sample.cfg_debug) "GET" "/"
                                  "10.0.0.1" None None None None)]
          (Sample.started (Raises (RequestException Timeout "Read timed out."))))).
Proof. vm_compute. reflexivity. Qed.

Example keyboard_interrupt_is_not_caught :
  fst (run (analyze_event Sample.client "GET" "/" "10.0.0.1" None None None None)
           (Sample.started (Raises KeyboardInterrupt)))
  = Raise KeyboardInterrupt.
Proof. reflexivity. Qed.

(** C1 (amended). When the remote call fails (an exception of
    [requests.post] such as a network error or a timeout, a 4xx or 5xx
    status, or a body that is not JSON), [analyze_event] returns a result
    with [allowed = True] and the error string, [prompt_guard] returns one
    with [allowed = False] and the error string, and neither raises. *)
Theorem remote_failure_falls_back
    (self : GuardialClient) (w : World)
    (method path ip : string) (ua : option string)
    (hs : option (gmap string string)) (q body : option string)
    (input : string) (context : option (gmap string pyval)) :
  remote_call_fails (remote w (length (posts w))) ->
  exists e,
    fst (run (analyze_event self method path ip ua hs q body) w)
      = Ok (fallback true e)
    /\ fst (run (prompt_guard self input context) w) = Ok (fallback false e)
    /\ dict_lookup (fallback true e) "allowed" = Some (PBool true)
    /\ dict_lookup (fallback false e) "allowed" = Some (PBool false)
    /\ dict_lookup (fallback true e) "error" = Some (PStr (exn_str e))
    /\ dict_lookup (fallback false e) "error" = Some (PStr (exn_str e)).
Proof.
  intros Hfail. destruct (attempt_fails _ Hfail) as (e & Hatt & Hexc).
  exists e. rewrite analyze_event_run, prompt_guard_run. cbv zeta.
  rewrite Hatt, Hexc. cbn [fst].
  destruct (fallback_fields true e), (fallback_fields false e). done.
Qed.

Lemma remote_failure_falls_back_witness :
  exists e,
    fst (run (analyze_event Sample.client "GET" "/login" "10.0.0.1" None None
                            None None)
             (Sample.started (Sample.answer 500 "Internal Server Error" PNone)))
      = Ok (fallback true e)
    /\ fst (run (prompt_guard Sample.client "ignore previous instructions" None)
                (Sample.started (Sample.answer 500 "Internal Server Error" PNone)))
      = Ok (fallback false e)
    /\ dict_lookup (fallback true e) "allowed" = Some (PBool true)
    /\ dict_lookup (fallback false e) "allowed" = Some (PBool false)
    /\ dict_lookup (fallback true e) "error" = Some (PStr (exn_str e))
    /\ dict_lookup (fallback false e) "error" = Some (PStr (exn_str e)).
Proof.
  apply (remote_failure_falls_back Sample.client
           (Sample.started (Sample.answer 500 "Internal Server Error" PNone))).
  left. simpl. lia.
Defined.

(** C1 as stated fails on a status that is outside 2xx but is no client or
    server error: [raise_for_status] lets 300 pass, and the result is the
    remote answer, here with [allowed = False] and without an error. *)
Lemma non_2xx_status_is_not_always_a_failure :
  let r := mkResponse 300 "Multiple Choices" "https://api.guardial.in/api/events"
                      (JsonValue Sample.deny) in
  non_2xx r
  /\ fst (run (analyze_event Sample.client "GET" "/login" "10.0.0.1" None None
                             None None)
              (Sample.started (Responds r)))
     = Ok Sample.deny
  /\ dict_lookup Sample.deny "allowed" = Some (PBool false)
  /\ dict_lookup Sample.deny "error" = None.
Proof.
  cbv zeta. split; [unfold non_2xx; simpl; lia|].
  split; [reflexivity|]. split; reflexivity.
Qed.

(** ** The adapters, by the result of the analysis *)

(** Run the analysis with [Han], then split on the flag that was read. *)
Ltac by_analysis Han :=
  unfold run, mbind, M_bind, bind, ret in *; rewrite Han;
  unfold lets_through, analysis_get, ret, raise, call_pipeline;
  destruct (Py.truthy (default (PBool true) (_ !! "allowed"))); reflexivity.

Lemma async_wrapper_run {R} (func : Handler R) args kwargs
    (w w1 w2 : World) c ra ip d :
  run (get_client None) w = (Ok c, w1) ->
  find_request args = Some ra ->
  a_client ra = Some ip ->
  run (asgi_analysis c ra ip) w1 = (Ok (PDict d), w2) ->
  run (async_wrapper func args kwargs) w =
  if lets_through d then run (invoke func args kwargs) w2
  else (Raise (FastAPIHTTPException 403 blocked_msg), w2).
Proof.
  intros Hc Hfind Hip Han. unfold async_wrapper.
  rewrite (run_bind_ok _ _ _ _ _ Hc), Hfind.
  unfold asgi_client_host. rewrite Hip.
  unfold asgi_analysis in Han.
  by_analysis Han.
Qed.

Lemma sync_wrapper_run {R} (func : Handler R) args kwargs
    (w w1 w2 : World) c rf d :
  run (get_client None) w = (Ok c, w1) ->
  run (flask_analysis c rf) w1 = (Ok (PDict d), w2) ->
  run (sync_wrapper (Some rf) func args kwargs) w =
  if lets_through d then run (invoke func args kwargs) w2
  else (Raise (WerkzeugAbort 403 blocked_msg), w2).
Proof.
  intros Hc Han. unfold sync_wrapper.
  rewrite (run_bind_ok _ _ _ _ _ Hc).
  unfold flask_analysis in Han.
  by_analysis Han.
Qed.

Lemma guardial_middleware_run (call_next : Handler HttpResponse)
    (w1 w2 : World) c ra ip d :
  existsb (PyStr.startswith (a_path ra)) fastapi_exclude_paths = false ->
  a_client ra = Some ip ->
  run (asgi_analysis c ra ip) w1 = (Ok (PDict d), w2) ->
  run (guardial_middleware c ra call_next) w1 =
  if lets_through d then run (invoke call_next [ArgRequest ra] []) w2
  else (Ok forbidden_response, w2).
Proof.
  intros Hex Hip Han. unfold guardial_middleware. rewrite Hex.
  unfold asgi_client_host. rewrite Hip.
  unfold asgi_analysis in Han.
  by_analysis Han.
Qed.

Lemma guardial_before_request_run (w1 w2 : World) c rf d :
  existsb (PyStr.startswith (f_path rf)) flask_exclude_paths = false ->
  run (flask_analysis c rf) w1 = (Ok (PDict d), w2) ->
  run (guardial_before_request c rf) w1 =
  if lets_through d then (Ok tt, w2)
  else (Raise (WerkzeugAbort 403 blocked_msg), w2).
Proof.
  intros Hex Han. unfold guardial_before_request. rewrite Hex.
  unfold flask_analysis in Han.
  by_analysis Han.
Qed.

Lemma flask_dispatch_run {R} (view : Handler R) args kwargs
    (w1 w2 : World) c rf d :
  existsb (PyStr.startswith (f_path rf)) flask_exclude_paths = false ->
  run (flask_analysis c rf) w1 = (Ok (PDict d), w2) ->
  run (flask_dispatch (guardial_before_request c) rf view args kwargs) w1 =
  if lets_through d then run (invoke view args kwargs) w2
  else (Raise (WerkzeugAbort 403 blocked_msg), w2).
Proof.
  intros Hex Han. unfold flask_dispatch.
  rewrite run_bind, (guardial_before_request_run _ _ _ _ _ Hex Han).
  destruct (lets_through d); reflexivity.
Qed.

(** ** Configuration *)

(** The world after a configuration was constructed: the clock and
    [uuid4] were read once each. *)
Lemma GuardialConfig_init_run ak ep cid dbg tmo (w : World) :
  run (GuardialConfig_init ak ep cid dbg tmo) w =
  let w' := set_uuid_reads (S (uuid_reads w))
              (set_time_reads (S (time_reads w)) w) in
  let key := PyStr.or_else ak (default "" (environ w !! "GUARDIAL_API_KEY")) in
  if PyStr.truthy key
  then (Ok (mkConfig key
              (PyStr.or_else ep (default "https://api.guardial.in"
                                   (environ w !! "GUARDIAL_ENDPOINT")))
              (PyStr.or_else cid (default "default"
                                    (environ w !! "GUARDIAL_CUSTOMER_ID")))
              (dbg || bool_decide
                        (PyStr.lower (default "false"
                                        (environ w !! "GUARDIAL_DEBUG")) = "true"))
              tmo
              ("session_" ++ pretty (time_src w (time_reads w)) ++ "_"
                 ++ PyStr.slice_to 9 (uuid_src w (uuid_reads w)))),
        w')
  else (Raise (ValueError missing_key_msg), w').
Proof.
  unfold GuardialConfig_init, run, mbind, M_bind, bind, getenv, time_time,
    uuid4_hex, ret, raise. cbn [environ set_time_reads set_uuid_reads].
  cbv zeta.
  destruct (PyStr.truthy (PyStr.or_else ak _)); reflexivity.
Qed.

Lemma or_else_explicit (k y : string) :
  k <> "" -> PyStr.or_else (Some k) y = k.
Proof. destruct k; [done|reflexivity]. Qed.

Lemma truthy_nonempty (k : string) : k <> "" <-> PyStr.truthy k = true.
Proof. destruct k; split; done. Qed.

(** C3. With no API key passed and no [GUARDIAL_API_KEY] in the
    environment, constructing a [GuardialConfig] raises [ValueError], and
    no [requests.post] has been made by then; with a non-empty key passed,
    or a non-empty key in the environment and none passed, construction
    succeeds with that key. *)
Theorem missing_api_key_fails_fast
    (w : World) (ep cid : option string) (dbg : bool) (tmo : Z) :
  (environ w !! "GUARDIAL_API_KEY" = None ->
   exists w',
     run (GuardialConfig_init None ep cid dbg tmo) w
       = (Raise (ValueError missing_key_msg), w')
     /\ posts w' = posts w /\ _client w' = _client w)
  /\ (forall k, k <> "" ->
      exists cfg w',
        run (GuardialConfig_init (Some k) ep cid dbg tmo) w = (Ok cfg, w')
        /\ api_key cfg = k /\ posts w' = posts w)
  /\ (forall k, k <> "" -> environ w !! "GUARDIAL_API_KEY" = Some k ->
      exists cfg w',
        run (GuardialConfig_init None ep cid dbg tmo) w = (Ok cfg, w')
        /\ api_key cfg = k /\ posts w' = posts w).
Proof.
  split; [|split].
  - intros Henv. rewrite GuardialConfig_init_run, Henv. cbv zeta.
    cbn [PyStr.or_else from_option id PyStr.truthy].
    eexists. split; [reflexivity|]. split; reflexivity.
  - intros k Hk. rewrite GuardialConfig_init_run. cbv zeta.
    rewrite (or_else_explicit k _ Hk).
    apply truthy_nonempty in Hk. rewrite Hk.
    eexists _, _. split; [reflexivity|]. split; reflexivity.
  - intros k Hk Henv. rewrite GuardialConfig_init_run, Henv. cbv zeta.
    cbn [PyStr.or_else from_option id].
    apply truthy_nonempty in Hk. rewrite Hk.
    eexists _, _. split; [reflexivity|]. split; reflexivity.
Qed.

Lemma missing_api_key_fails_fast_witness :
  (exists w',
     run (GuardialConfig_init None None None false 30)
         (Sample.fresh ∅ (Sample.answer 200 "OK" Sample.allow))
       = (Raise (ValueError missing_key_msg), w')
     /\ posts w' = posts (Sample.fresh ∅ (Sample.answer 200 "OK" Sample.allow))
     /\ _client w' = _client (Sample.fresh ∅ (Sample.answer 200 "OK" Sample.allow)))
  /\ (exists cfg w',
        run (GuardialConfig_init (Some "sk_live_1") None None false 30)
            (Sample.fresh ∅ (Sample.answer 200 "OK" Sample.allow))
          = (Ok cfg, w')
        /\ api_key cfg = "sk_live_1"
        /\ posts w' = posts (Sample.fresh ∅ (Sample.answer 200 "OK" Sample.allow)))
  /\ (exists cfg w',
        run (GuardialConfig_init None None None false 30)
            (Sample.fresh Sample.env_key (Sample.answer 200 "OK" Sample.allow))
          = (Ok cfg, w')
        /\ api_key cfg = "sk_live_1"
        /\ posts w' = posts (Sample.fresh Sample.env_key
                               (Sample.answer 200 "OK" Sample.allow))).
Proof.
  pose proof (missing_api_key_fails_fast
                (Sample.fresh ∅ (Sample.answer 200 "OK" Sample.allow))
                None None false 30) as (H1 & H2 & _).
  pose proof (missing_api_key_fails_fast
                (Sample.fresh Sample.env_key (Sample.answer 200 "OK" Sample.allow))
                None None false 30) as (_ & _ & H3).
  split; [exact (H1 eq_refl)|].
  split; [exact (H2 "sk_live_1" ltac:(discriminate))|].
  exact (H3 "sk_live_1" ltac:(discriminate) ltac:(vm_compute; reflexivity)).
Defined.

Lemma or_else_resolve (x env : option string) (dflt : string) :
  PyStr.or_else x (default dflt env) = resolve_spec (given_str x) env dflt.
Proof.
  destruct x as [s|]; [|reflexivity].
  unfold PyStr.or_else, given_str. destruct (PyStr.truthy s); reflexivity.
Qed.

Lemma debug_resolve (x : option bool) (w : World) :
  default false x
    || bool_decide (PyStr.lower (default "false" (environ w !! "GUARDIAL_DEBUG"))
                    = "true")
  = resolve_spec (given_flag x) (env_flag w) false.
Proof.
  unfold env_flag. destruct x as [[|]|]; cbn [from_option id orb given_flag resolve_spec];
    try reflexivity; destruct (environ w !! "GUARDIAL_DEBUG"); reflexivity.
Qed.

(** C4 (amended). Each string field (API key, endpoint, customer id) is
    the explicit argument when that is a non-empty string, otherwise the
    value of its environment variable when set, otherwise the default; the
    debug flag is the explicit argument when that is [True], otherwise
    whether [GUARDIAL_DEBUG] is [true] in any casing, otherwise false; the
    timeout is the explicit argument, otherwise 30.  So an explicit
    non-empty string and an explicit [True] are preferred over the
    environment. *)
Theorem config_resolution_order
    (a : ConfigArgs) (w w' : World) (cfg : GuardialConfig) :
  run (GuardialConfig_new a) w = (Ok cfg, w') ->
  api_key cfg
    = resolve_spec (given_str (arg_api_key a)) (environ w !! "GUARDIAL_API_KEY") ""
  /\ endpoint cfg
    = resolve_spec (given_str (arg_endpoint a)) (environ w !! "GUARDIAL_ENDPOINT")
                   "https://api.guardial.in"
  /\ customer_id cfg
    = resolve_spec (given_str (arg_customer_id a))
                   (environ w !! "GUARDIAL_CUSTOMER_ID") "default"
  /\ debug cfg = resolve_spec (given_flag (arg_debug a)) (env_flag w) false
  /\ timeout cfg = resolve_spec (arg_timeout a) None 30
  /\ (forall s, arg_api_key a = Some s -> s <> "" -> api_key cfg = s)
  /\ (forall s, arg_endpoint a = Some s -> s <> "" -> endpoint cfg = s)
  /\ (forall s, arg_customer_id a = Some s -> s <> "" -> customer_id cfg = s)
  /\ (arg_debug a = Some true -> debug cfg = true)
  /\ (forall t, arg_timeout a = Some t -> timeout cfg = t).
Proof.
  unfold GuardialConfig_new. rewrite GuardialConfig_init_run. cbv zeta.
  destruct (PyStr.truthy _); [|discriminate].
  intros [= <- _]. cbn [api_key endpoint customer_id debug timeout].
  rewrite !or_else_resolve, debug_resolve.
  do 4 (split; [reflexivity|]).
  split; [destruct (arg_timeout a); reflexivity|].
  split; [intros s -> Hs; apply truthy_nonempty in Hs;
          unfold given_str; by rewrite Hs|].
  split; [intros s -> Hs; apply truthy_nonempty in Hs;
          unfold given_str; by rewrite Hs|].
  split; [intros s -> Hs; apply truthy_nonempty in Hs;
          unfold given_str; by rewrite Hs|].
  split; [intros ->; reflexivity|].
  intros t ->. reflexivity.
Qed.

Lemma config_resolution_order_witness :
  api_key SampleConfig.cfg_full
    = resolve_spec (given_str (arg_api_key SampleConfig.args_full))
                   (environ SampleConfig.world_full !! "GUARDIAL_API_KEY") ""
  /\ endpoint SampleConfig.cfg_full
    = resolve_spec (given_str (arg_endpoint SampleConfig.args_full))
                   (environ SampleConfig.world_full !! "GUARDIAL_ENDPOINT")
                   "https://api.guardial.in"
  /\ customer_id SampleConfig.cfg_full
    = resolve_spec (given_str (arg_customer_id SampleConfig.args_full))
                   (environ SampleConfig.world_full !! "GUARDIAL_CUSTOMER_ID")
                   "default"
  /\ debug SampleConfig.cfg_full
    = resolve_spec (given_flag (arg_debug SampleConfig.args_full))
                   (env_flag SampleConfig.world_full) false
  /\ timeout SampleConfig.cfg_full
    = resolve_spec (arg_timeout SampleConfig.args_full) None 30
  /\ (forall s, arg_api_key SampleConfig.args_full = Some s -> s <> "" ->
        api_key SampleConfig.cfg_full = s)
  /\ (forall s, arg_endpoint SampleConfig.args_full = Some s -> s <> "" ->
        endpoint SampleConfig.cfg_full = s)
  /\ (forall s, arg_customer_id SampleConfig.args_full = Some s -> s <> "" ->
        customer_id SampleConfig.cfg_full = s)
  /\ (arg_debug SampleConfig.args_full = Some true ->
        debug SampleConfig.cfg_full = true)
  /\ (forall t, arg_timeout SampleConfig.args_full = Some t ->
        timeout SampleConfig.cfg_full = t).
Proof.
  exact (config_resolution_order SampleConfig.args_full SampleConfig.world_full
           (SampleConfig.after_init SampleConfig.world_full)
           SampleConfig.cfg_full ltac:(vm_compute; reflexivity)).
Defined.

(** C4 as stated fails for an explicit value that is falsy: with
    [debug=False] passed and [GUARDIAL_DEBUG=TRUE] set the resolved flag
    is true, and with [endpoint=''] passed and [GUARDIAL_ENDPOINT] set the
    resolved endpoint is the environment's. *)
Lemma explicit_falsy_value_is_not_preferred :
  run (GuardialConfig_new SampleConfig.args_falsy) SampleConfig.world_full
    = (Ok SampleConfig.cfg_falsy,
       SampleConfig.after_init SampleConfig.world_full)
  /\ arg_debug SampleConfig.args_falsy = Some false
  /\ debug SampleConfig.cfg_falsy = true
  /\ debug SampleConfig.cfg_falsy
     <> resolve_spec (arg_debug SampleConfig.args_falsy)
                     (env_flag SampleConfig.world_full) false
  /\ endpoint SampleConfig.cfg_falsy
     <> resolve_spec (arg_endpoint SampleConfig.args_falsy)
                     (environ SampleConfig.world_full !! "GUARDIAL_ENDPOINT")
                     "https://api.guardial.in".
Proof.
  split; [vm_compute; reflexivity|].
  split; [reflexivity|]. split; [reflexivity|].
  split; vm_compute; discriminate.
Qed.

(** ** The global client *)

Lemma GuardialClient_init_run (arg : option GuardialConfig) (w : World) :
  run (GuardialClient_init arg) w =
  match arg with
  | Some cfg => (Ok (mkClient cfg), w)
  | None =>
      match run (GuardialConfig_new no_args) w with
      | (Ok cfg, w1) => (Ok (mkClient cfg), w1)
      | (Raise e, w1) => (Raise e, w1)
      end
  end.
Proof. destruct arg; reflexivity. Qed.

Lemma get_client_run (arg : option GuardialConfig) (w : World) :
  run (get_client arg) w =
  match _client w with
  | Some c => (Ok c, w)
  | None =>
      match run (GuardialClient_init arg) w with
      | (Ok c, w1) => (Ok c, set_client (Some c) w1)
      | (Raise e, w1) => (Raise e, w1)
      end
  end.
Proof.
  unfold get_client, read_client, write_client, run, mbind, M_bind, bind, ret.
  destruct (_client w); [reflexivity|].
  destruct (GuardialClient_init arg w) as [[c|e] w1]; reflexivity.
Qed.

Lemma get_client_cached (arg : option GuardialConfig) (w : World) c :
  _client w = Some c -> run (get_client arg) w = (Ok c, w).
Proof. intros H. by rewrite get_client_run, H. Qed.

Lemma get_client_sets (arg : option GuardialConfig) (w w1 : World) c :
  run (get_client arg) w = (Ok c, w1) -> _client w1 = Some c.
Proof.
  rewrite get_client_run. destruct (_client w) as [c0|] eqn:Hc.
  - by intros [= <- <-].
  - destruct (run (GuardialClient_init arg) w) as [[c'|e] w2]; [|done].
    by intros [= <- <-].
Qed.

(** Fetching the client makes no post and calls no handler. *)
Lemma get_client_frame (arg : option GuardialConfig) (w w1 : World)
    (r : Outcome GuardialClient) :
  run (get_client arg) w = (r, w1) ->
  posts w1 = posts w /\ calls w1 = calls w /\ remote w1 = remote w
  /\ stdout w1 = stdout w.
Proof.
  rewrite get_client_run. destruct (_client w) as [c0|].
  - by intros [= <- <-].
  - rewrite GuardialClient_init_run. destruct arg as [cfg|].
    + by intros [= <- <-].
    + unfold GuardialConfig_new. rewrite GuardialConfig_init_run. cbv zeta.
      destruct (PyStr.truthy _); by intros [= <- <-].
Qed.

(** A call whose statements run with no other thread in between is
    [get_client]. *)
Lemma get_client_steps_run (arg : option GuardialConfig) (w : World) :
  get_client_steps 4 (AtTest arg) w
  = match run (get_client arg) w with
    | (Ok c, w1) => (Returned (Some c), w1)
    | (Raise e, w1) => (Failed e, w1)
    end.
Proof.
  rewrite get_client_run. cbn [get_client_steps get_client_step].
  destruct (_client w) as [c|] eqn:Hc.
  - cbn [get_client_steps get_client_step]. by rewrite Hc.
  - cbn [get_client_steps get_client_step].
    destruct (run (GuardialClient_init arg) w) as [[c|e] w1]; reflexivity.
Qed.

(** C9 (amended). For calls that do not overlap: while there is no global
    client, [get_client] builds one from the configuration passed, or from
    a fresh default configuration when none is passed (and stores nothing
    when that raises), stores it and returns it; once it is there, every
    call returns that same client and changes nothing, whatever
    configuration is passed.  The statements of one call, run with no
    other thread in between, do exactly that. *)
Theorem get_client_is_a_singleton (w : World) (arg : option GuardialConfig) :
  (_client w = None ->
   forall cfg,
     run (get_client (Some cfg)) w
     = (Ok (mkClient cfg), set_client (Some (mkClient cfg)) w))
  /\ (_client w = None ->
      run (get_client None) w
      = match run (GuardialConfig_new no_args) w with
        | (Ok cfg, w1) => (Ok (mkClient cfg), set_client (Some (mkClient cfg)) w1)
        | (Raise e, w1) => (Raise e, w1)
        end)
  /\ (forall c, _client w = Some c -> run (get_client arg) w = (Ok c, w))
  /\ (forall c w1,
        run (get_client arg) w = (Ok c, w1) ->
        _client w1 = Some c
        /\ forall arg', run (get_client arg') w1 = (Ok c, w1))
  /\ get_client_steps 4 (AtTest arg) w
     = match run (get_client arg) w with
       | (Ok c, w1) => (Returned (Some c), w1)
       | (Raise e, w1) => (Failed e, w1)
       end
  /\ (forall c w1 arg',
        get_client_steps 4 (AtTest arg) w = (Returned (Some c), w1) ->
        get_client_steps 4 (AtTest arg') w1 = (Returned (Some c), w1)).
Proof.
  split; [|split; [|split; [|split; [|split]]]].
  - intros Hnone cfg. by rewrite get_client_run, Hnone.
  - intros Hnone. rewrite get_client_run, Hnone, GuardialClient_init_run.
    destruct (run (GuardialConfig_new no_args) w) as [[cfg|e] w1]; reflexivity.
  - intros c. apply get_client_cached.
  - intros c w1 Hrun. pose proof (get_client_sets _ _ _ _ Hrun) as Hset.
    split; [done|]. intros arg'. by apply get_client_cached.
  - apply get_client_steps_run.
  - intros c w1 arg'. rewrite !get_client_steps_run.
    destruct (run (get_client arg) w) as [[c0|e] w0] eqn:Hrun; [|done].
    intros [= -> ->]. apply get_client_sets in Hrun.
    by rewrite (get_client_cached arg' w1 c Hrun).
Qed.

Lemma get_client_is_a_singleton_witness :
  run (get_client None) (SampleClient.before SampleClient.ok_allow)
    = (Ok SampleClient.first, SampleClient.after SampleClient.ok_allow)
  /\ _client (SampleClient.after SampleClient.ok_allow) = Some SampleClient.first
  /\ run (get_client (Some Sample.cfg_debug))
         (SampleClient.after SampleClient.ok_allow)
    = (Ok SampleClient.first, SampleClient.after SampleClient.ok_allow)
  /\ run (get_client (Some Sample.cfg_debug))
         (SampleClient.before SampleClient.ok_allow)
    = (Ok (mkClient Sample.cfg_debug),
       set_client (Some (mkClient Sample.cfg_debug))
                  (SampleClient.before SampleClient.ok_allow))
  /\ get_client_steps 4 (AtTest (Some Sample.cfg_debug))
                      (SampleClient.after SampleClient.ok_allow)
    = (Returned (Some SampleClient.first),
       SampleClient.after SampleClient.ok_allow).
Proof.
  pose proof (get_client_is_a_singleton
                (SampleClient.before SampleClient.ok_allow) None)
    as (Hfirst & _ & _ & Hnext & _ & Hsteps).
  pose proof (Hnext SampleClient.first (SampleClient.after SampleClient.ok_allow)
                ltac:(vm_compute; reflexivity)) as (Hset & Hsame).
  split; [vm_compute; reflexivity|].
  split; [exact Hset|].
  split; [exact (Hsame (Some Sample.cfg_debug))|].
  split; [exact (Hfirst eq_refl Sample.cfg_debug)|].
  exact (Hsteps SampleClient.first (SampleClient.after SampleClient.ok_allow)
                (Some Sample.cfg_debug) ltac:(vm_compute; reflexivity)).
Defined.

(** C9 as stated fails for first calls that overlap.  Two threads call
    [get_client()] in a fresh process and both test [_client] before
    either has stored a client: each constructs a client of its own (two
    UUIDs are drawn), the second assignment replaces the first, and the
    two calls return different clients, the first of which is no longer
    the global one.  When the first call returns before the second
    begins, only one client is built and both calls return it. *)
Lemma overlapping_first_calls_build_two_clients :
  _client SampleThreads.world = None
  /\ run_schedule SampleThreads.overlapping
       (AtTest None, AtTest None, SampleThreads.world)
     = (Returned (Some SampleThreads.client_a),
        Returned (Some SampleThreads.client_b),
        set_client (Some SampleThreads.client_b)
          (set_uuid_reads 2 (set_time_reads 2 SampleThreads.world)))
  /\ SampleThreads.client_a <> SampleThreads.client_b
  /\ run_schedule SampleThreads.one_after_the_other
       (AtTest None, AtTest None, SampleThreads.world)
     = (Returned (Some SampleThreads.client_a),
        Returned (Some SampleThreads.client_a),
        set_client (Some SampleThreads.client_a)
          (set_uuid_reads 1 (set_time_reads 1 SampleThreads.world))).
Proof.
  split; [reflexivity|]. split; [vm_compute; reflexivity|].
  split; [discriminate|]. vm_compute; reflexivity.
Qed.

(** ** How the adapters are put in place *)

(** [protect] hands out the async wrapper for a coroutine function and the
    sync wrapper otherwise. *)
Lemma protect_branches {R} (request : option FlaskRequest) (func : Handler R) :
  protect true request func = async_wrapper func
  /\ protect false request func = sync_wrapper request func.
Proof. split; reflexivity. Qed.

(** Registering a middleware fetches the global client once and closes the
    hook over it. *)
Lemma fastapi_middleware_run (cfg : option GuardialConfig) (w : World) :
  run (fastapi_middleware cfg) w =
  match run (get_client cfg) w with
  | (Ok c, w1) => (Ok (guardial_middleware c), w1)
  | (Raise e, w1) => (Raise e, w1)
  end.
Proof. reflexivity. Qed.

Lemma flask_middleware_run (cfg : option GuardialConfig) (w : World) :
  run (flask_middleware cfg) w =
  match run (get_client cfg) w with
  | (Ok c, w1) => (Ok (guardial_before_request c), w1)
  | (Raise e, w1) => (Raise e, w1)
  end.
Proof. reflexivity. Qed.

(** ** Rejecting and forwarding *)

Lemma analysis_frame self method path ip ua hs q body (w w' : World)
    (r : Outcome pyval) :
  run (analyze_event self method path ip ua hs q body) w = (r, w') ->
  calls w' = calls w /\ _client w' = _client w
  /\ posts w' = (posts w ++ [event_post self
                               (build_event self method path ip ua hs q body)])%list.
Proof.
  intros Hrun.
  pose proof (analyze_event_frame self method path ip ua hs q body w) as Hf.
  pose proof (analyze_event_posts self method path ip ua hs q body w) as Hp.
  cbv zeta in Hf. rewrite Hrun in Hf, Hp. cbn [snd] in Hf, Hp.
  destruct Hf as (_ & _ & _ & Hc & Hcalls & _). done.
Qed.

Lemma asgi_analysis_calls c ra ip (w w' : World) (r : Outcome pyval) :
  run (asgi_analysis c ra ip) w = (r, w') -> calls w' = calls w.
Proof. intros H. by apply analysis_frame in H as (? & _). Qed.

Lemma flask_analysis_calls c rf (w w' : World) (r : Outcome pyval) :
  run (flask_analysis c rf) w = (r, w') -> calls w' = calls w.
Proof. intros H. by apply analysis_frame in H as (? & _). Qed.

Lemma get_client_keeps_calls arg (w w1 : World) (r : Outcome GuardialClient) :
  run (get_client arg) w = (r, w1) -> calls w1 = calls w.
Proof. intros H. by apply get_client_frame in H as (_ & ? & _). Qed.

Lemma lets_through_false (d : gmap string pyval) :
  d !! "allowed" = Some (PBool false) -> lets_through d = false.
Proof. intros H. unfold lets_through. by rewrite H. Qed.

Lemma lets_through_true (d : gmap string pyval) :
  d !! "allowed" = Some (PBool true) -> lets_through d = true.
Proof. intros H. unfold lets_through. by rewrite H. Qed.

Lemma lets_through_missing (d : gmap string pyval) :
  d !! "allowed" = None -> lets_through d = true.
Proof. intros H. unfold lets_through. by rewrite H. Qed.

(** C2. When the analysis of a request returns a dictionary with
    [allowed = False], the async and the sync wrapper of [protect], the
    FastAPI middleware and the Flask hook each end the request with status
    403 and the message "Request blocked by security policy", in the world
    the analysis left: no handler has been called.  The wrappers and the
    hook raise ([HTTPException] with that detail, [abort] with that
    description); the middleware returns a response with status 403, media
    type [application/json] and, as content, the JSON object whose one key
    [error] holds the message (the character 034 is the double quote). *)
Theorem denied_request_is_rejected (d : gmap string pyval) :
  d !! "allowed" = Some (PBool false) ->
  (forall R (func : Handler R) args kwargs (w w1 w2 : World) c ra ip,
      run (get_client None) w = (Ok c, w1) ->
      find_request args = Some ra ->
      a_client ra = Some ip ->
      run (asgi_analysis c ra ip) w1 = (Ok (PDict d), w2) ->
      run (async_wrapper func args kwargs) w
        = (Raise (FastAPIHTTPException 403 "Request blocked by security policy"),
           w2)
      /\ calls w2 = calls w)
  /\ (forall R (func : Handler R) args kwargs (w w1 w2 : World) c rf,
      run (get_client None) w = (Ok c, w1) ->
      run (flask_analysis c rf) w1 = (Ok (PDict d), w2) ->
      run (sync_wrapper (Some rf) func args kwargs) w
        = (Raise (WerkzeugAbort 403 "Request blocked by security policy"), w2)
      /\ calls w2 = calls w)
  /\ (forall (call_next : Handler HttpResponse) (w1 w2 : World) c ra ip,
      existsb (PyStr.startswith (a_path ra)) fastapi_exclude_paths = false ->
      a_client ra = Some ip ->
      run (asgi_analysis c ra ip) w1 = (Ok (PDict d), w2) ->
      exists resp,
        run (guardial_middleware c ra call_next) w1 = (Ok resp, w2)
        /\ status_code resp = 403
        /\ content resp
           = ("{" ++ String "034" ("error" ++ String "034" (": " ++ String "034"
                ("Request blocked by security policy" ++ String "034" "}"))))%string
        /\ media_type resp = "application/json"
        /\ calls w2 = calls w1)
  /\ (forall R (view : Handler R) args kwargs (w1 w2 : World) c rf,
      existsb (PyStr.startswith (f_path rf)) flask_exclude_paths = false ->
      run (flask_analysis c rf) w1 = (Ok (PDict d), w2) ->
      run (guardial_before_request c rf) w1
        = (Raise (WerkzeugAbort 403 "Request blocked by security policy"), w2)
      /\ run (flask_dispatch (guardial_before_request c) rf view args kwargs) w1
        = (Raise (WerkzeugAbort 403 "Request blocked by security policy"), w2)
      /\ calls w2 = calls w1).
Proof.
  intros Hd. apply lets_through_false in Hd.
  split; [|split; [|split]].
  - intros R func args kwargs w w1 w2 c ra ip Hc Hfind Hip Han.
    rewrite (async_wrapper_run func args kwargs w w1 w2 c ra ip d Hc Hfind Hip Han).
    rewrite Hd. split; [reflexivity|].
    rewrite (asgi_analysis_calls _ _ _ _ _ _ Han).
    apply (get_client_keeps_calls _ _ _ _ Hc).
  - intros R func args kwargs w w1 w2 c rf Hc Han.
    rewrite (sync_wrapper_run func args kwargs w w1 w2 c rf d Hc Han).
    rewrite Hd. split; [reflexivity|].
    rewrite (flask_analysis_calls _ _ _ _ _ Han).
    apply (get_client_keeps_calls _ _ _ _ Hc).
  - intros call_next w1 w2 c ra ip Hex Hip Han. exists forbidden_response.
    rewrite (guardial_middleware_run call_next w1 w2 c ra ip d Hex Hip Han).
    rewrite Hd. split; [reflexivity|]. split; [reflexivity|].
    split; [reflexivity|]. split; [reflexivity|].
    apply (asgi_analysis_calls _ _ _ _ _ _ Han).
  - intros R view args kwargs w1 w2 c rf Hex Han.
    rewrite (guardial_before_request_run w1 w2 c rf d Hex Han).
    rewrite (flask_dispatch_run view args kwargs w1 w2 c rf d Hex Han).
    rewrite Hd. split; [reflexivity|]. split; [reflexivity|].
    apply (flask_analysis_calls _ _ _ _ _ Han).
Qed.

(** C6. When the analysis of a request returns a dictionary with
    [allowed = True], each adapter calls the wrapped handler once, with the
    arguments it was itself called with, in the world the analysis left,
    and its outcome is the handler's. *)
Theorem allowed_request_reaches_handler (d : gmap string pyval) :
  d !! "allowed" = Some (PBool true) ->
  (forall R (func : Handler R) args kwargs (w w1 w2 : World) c ra ip,
      run (get_client None) w = (Ok c, w1) ->
      find_request args = Some ra ->
      a_client ra = Some ip ->
      run (asgi_analysis c ra ip) w1 = (Ok (PDict d), w2) ->
      run (async_wrapper func args kwargs) w
        = func args kwargs (set_calls (calls w ++ [mkCall args kwargs]) w2))
  /\ (forall R (func : Handler R) args kwargs (w w1 w2 : World) c rf,
      run (get_client None) w = (Ok c, w1) ->
      run (flask_analysis c rf) w1 = (Ok (PDict d), w2) ->
      run (sync_wrapper (Some rf) func args kwargs) w
        = func args kwargs (set_calls (calls w ++ [mkCall args kwargs]) w2))
  /\ (forall (call_next : Handler HttpResponse) (w1 w2 : World) c ra ip,
      existsb (PyStr.startswith (a_path ra)) fastapi_exclude_paths = false ->
      a_client ra = Some ip ->
      run (asgi_analysis c ra ip) w1 = (Ok (PDict d), w2) ->
      run (guardial_middleware c ra call_next) w1
        = call_next [ArgRequest ra] []
            (set_calls (calls w1 ++ [mkCall [ArgRequest ra] []]) w2))
  /\ (forall R (view : Handler R) args kwargs (w1 w2 : World) c rf,
      existsb (PyStr.startswith (f_path rf)) flask_exclude_paths = false ->
      run (flask_analysis c rf) w1 = (Ok (PDict d), w2) ->
      run (guardial_before_request c rf) w1 = (Ok tt, w2)
      /\ run (flask_dispatch (guardial_before_request c) rf view args kwargs) w1
        = view args kwargs (set_calls (calls w1 ++ [mkCall args kwargs]) w2)).
Proof.
  intros Hd. apply lets_through_true in Hd.
  split; [|split; [|split]].
  - intros R func args kwargs w w1 w2 c ra ip Hc Hfind Hip Han.
    rewrite (async_wrapper_run func args kwargs w w1 w2 c ra ip d Hc Hfind Hip Han).
    rewrite Hd. unfold run, invoke.
    rewrite (asgi_analysis_calls _ _ _ _ _ _ Han).
    by rewrite (get_client_keeps_calls _ _ _ _ Hc).
  - intros R func args kwargs w w1 w2 c rf Hc Han.
    rewrite (sync_wrapper_run func args kwargs w w1 w2 c rf d Hc Han).
    rewrite Hd. unfold run, invoke.
    rewrite (flask_analysis_calls _ _ _ _ _ Han).
    by rewrite (get_client_keeps_calls _ _ _ _ Hc).
  - intros call_next w1 w2 c ra ip Hex Hip Han.
    rewrite (guardial_middleware_run call_next w1 w2 c ra ip d Hex Hip Han).
    rewrite Hd. unfold run, invoke.
    by rewrite (asgi_analysis_calls _ _ _ _ _ _ Han).
  - intros R view args kwargs w1 w2 c rf Hex Han.
    rewrite (guardial_before_request_run w1 w2 c rf d Hex Han).
    rewrite (flask_dispatch_run view args kwargs w1 w2 c rf d Hex Han).
    rewrite Hd. split; [reflexivity|]. unfold run, invoke.
    by rewrite (flask_analysis_calls _ _ _ _ _ Han).
Qed.

Lemma denied_request_is_rejected_witness :
  (run (async_wrapper Sample.handler SampleRun.args SampleRun.kwargs)
       (SampleClient.before SampleRun.ok_deny)
     = (Raise (FastAPIHTTPException 403 "Request blocked by security policy"),
        SampleRun.analysed_asgi SampleRun.ok_deny)
   /\ calls (SampleRun.analysed_asgi SampleRun.ok_deny)
      = calls (SampleClient.before SampleRun.ok_deny))
  /\ (run (sync_wrapper (Some Sample.flask_req) Sample.handler SampleRun.args
                        SampleRun.kwargs)
          (SampleClient.before SampleRun.ok_deny)
      = (Raise (WerkzeugAbort 403 "Request blocked by security policy"),
         SampleRun.analysed_flask SampleRun.ok_deny)
      /\ calls (SampleRun.analysed_flask SampleRun.ok_deny)
         = calls (SampleClient.before SampleRun.ok_deny))
  /\ (exists resp,
        run (guardial_middleware SampleClient.first Sample.asgi_req Sample.pipeline)
            (SampleClient.after SampleRun.ok_deny)
        = (Ok resp, SampleRun.analysed_asgi SampleRun.ok_deny)
        /\ status_code resp = 403
        /\ content resp
           = ("{" ++ String "034" ("error" ++ String "034" (": " ++ String "034"
                ("Request blocked by security policy" ++ String "034" "}"))))%string
        /\ media_type resp = "application/json"
        /\ calls (SampleRun.analysed_asgi SampleRun.ok_deny)
           = calls (SampleClient.after SampleRun.ok_deny))
  /\ (run (guardial_before_request SampleClient.first Sample.flask_req)
          (SampleClient.after SampleRun.ok_deny)
      = (Raise (WerkzeugAbort 403 "Request blocked by security policy"),
         SampleRun.analysed_flask SampleRun.ok_deny)
      /\ run (flask_dispatch (guardial_before_request SampleClient.first)
                             Sample.flask_req Sample.handler SampleRun.args
                             SampleRun.kwargs)
             (SampleClient.after SampleRun.ok_deny)
        = (Raise (WerkzeugAbort 403 "Request blocked by security policy"),
           SampleRun.analysed_flask SampleRun.ok_deny)
      /\ calls (SampleRun.analysed_flask SampleRun.ok_deny)
         = calls (SampleClient.after SampleRun.ok_deny)).
Proof.
  pose proof (denied_request_is_rejected Sample.deny_dict
                ltac:(vm_compute; reflexivity)) as (Ha & Hs & Hm & Hf).
  split; [|split; [|split]].
  - exact (Ha pyval Sample.handler SampleRun.args SampleRun.kwargs
              (SampleClient.before SampleRun.ok_deny)
              (SampleClient.after SampleRun.ok_deny)
              (SampleRun.analysed_asgi SampleRun.ok_deny)
              SampleClient.first Sample.asgi_req "10.0.0.1"
              ltac:(vm_compute; reflexivity) eq_refl eq_refl
              ltac:(vm_compute; reflexivity)).
  - exact (Hs pyval Sample.handler SampleRun.args SampleRun.kwargs
              (SampleClient.before SampleRun.ok_deny)
              (SampleClient.after SampleRun.ok_deny)
              (SampleRun.analysed_flask SampleRun.ok_deny)
              SampleClient.first Sample.flask_req
              ltac:(vm_compute; reflexivity) ltac:(vm_compute; reflexivity)).
  - exact (Hm Sample.pipeline (SampleClient.after SampleRun.ok_deny)
              (SampleRun.analysed_asgi SampleRun.ok_deny)
              SampleClient.first Sample.asgi_req "10.0.0.1"
              ltac:(vm_compute; reflexivity) eq_refl
              ltac:(vm_compute; reflexivity)).
  - exact (Hf pyval Sample.handler SampleRun.args SampleRun.kwargs
              (SampleClient.after SampleRun.ok_deny)
              (SampleRun.analysed_flask SampleRun.ok_deny)
              SampleClient.first Sample.flask_req
              ltac:(vm_compute; reflexivity) ltac:(vm_compute; reflexivity)).
Defined.

Lemma allowed_request_reaches_handler_witness :
  run (async_wrapper Sample.handler SampleRun.args SampleRun.kwargs)
      (SampleClient.before SampleClient.ok_allow)
    = (Ok (PStr "handled"),
       set_calls [mkCall SampleRun.args SampleRun.kwargs]
                 (SampleRun.analysed_asgi SampleClient.ok_allow))
  /\ run (sync_wrapper (Some Sample.flask_req) Sample.handler SampleRun.args
                       SampleRun.kwargs)
         (SampleClient.before SampleClient.ok_allow)
    = (Ok (PStr "handled"),
       set_calls [mkCall SampleRun.args SampleRun.kwargs]
                 (SampleRun.analysed_flask SampleClient.ok_allow))
  /\ run (guardial_middleware SampleClient.first Sample.asgi_req Sample.pipeline)
         (SampleClient.after SampleClient.ok_allow)
    = (Ok Sample.page,
       set_calls [mkCall [ArgRequest Sample.asgi_req] []]
                 (SampleRun.analysed_asgi SampleClient.ok_allow))
  /\ run (guardial_before_request SampleClient.first Sample.flask_req)
         (SampleClient.after SampleClient.ok_allow)
    = (Ok tt, SampleRun.analysed_flask SampleClient.ok_allow)
  /\ run (flask_dispatch (guardial_before_request SampleClient.first)
                         Sample.flask_req Sample.handler SampleRun.args
                         SampleRun.kwargs)
         (SampleClient.after SampleClient.ok_allow)
    = (Ok (PStr "handled"),
       set_calls [mkCall SampleRun.args SampleRun.kwargs]
                 (SampleRun.analysed_flask SampleClient.ok_allow)).
Proof.
  pose proof (allowed_request_reaches_handler Sample.allow_dict
                ltac:(vm_compute; reflexivity)) as (Ha & Hs & Hm & Hf).
  split; [|split; [|split]].
  - exact (Ha pyval Sample.handler SampleRun.args SampleRun.kwargs
              (SampleClient.before SampleClient.ok_allow)
              (SampleClient.after SampleClient.ok_allow)
              (SampleRun.analysed_asgi SampleClient.ok_allow)
              SampleClient.first Sample.asgi_req "10.0.0.1"
              ltac:(vm_compute; reflexivity) eq_refl eq_refl
              ltac:(vm_compute; reflexivity)).
  - exact (Hs pyval Sample.handler SampleRun.args SampleRun.kwargs
              (SampleClient.before SampleClient.ok_allow)
              (SampleClient.after SampleClient.ok_allow)
              (SampleRun.analysed_flask SampleClient.ok_allow)
              SampleClient.first Sample.flask_req
              ltac:(vm_compute; reflexivity) ltac:(vm_compute; reflexivity)).
  - exact (Hm Sample.pipeline (SampleClient.after SampleClient.ok_allow)
              (SampleRun.analysed_asgi SampleClient.ok_allow)
              SampleClient.first Sample.asgi_req "10.0.0.1"
              ltac:(vm_compute; reflexivity) eq_refl
              ltac:(vm_compute; reflexivity)).
  - exact (Hf pyval Sample.handler SampleRun.args SampleRun.kwargs
              (SampleClient.after SampleClient.ok_allow)
              (SampleRun.analysed_flask SampleClient.ok_allow)
              SampleClient.first Sample.flask_req
              ltac:(vm_compute; reflexivity) ltac:(vm_compute; reflexivity)).
Defined.

(** A 2xx answer with a JSON body is what [analyze_event] returns. *)
Lemma analyze_event_success self method path ip ua hs q body (w : World)
    (r : Response) (v : pyval) :
  remote w (length (posts w)) = Responds r ->
  200 <= resp_status r < 300 ->
  resp_body r = JsonValue v ->
  run (analyze_event self method path ip ua hs q body) w
  = (Ok v, set_posts (posts w ++ [event_post self
                        (build_event self method path ip ua hs q body)]) w).
Proof.
  intros Hr Hst Hbody. rewrite analyze_event_run. cbv zeta.
  rewrite Hr. unfold attempt.
  rewrite (http_error_msg_empty r) by lia. cbn [PyStr.truthy].
  by rewrite Hbody.
Qed.

(** C8. When the remote service answers 2xx with a JSON object that has no
    [allowed] key, [analyze_event] returns that object and each adapter
    treats the request as allowed: the handler is called, as for
    [allowed = True], and nothing is rejected. *)
Theorem missing_allowed_key_lets_through
    (d : gmap string pyval) (r : Response) :
  200 <= resp_status r < 300 ->
  resp_body r = JsonValue (PDict d) ->
  d !! "allowed" = None ->
  (forall R (func : Handler R) args kwargs (w w1 : World) c ra ip,
      run (get_client None) w = (Ok c, w1) ->
      find_request args = Some ra ->
      a_client ra = Some ip ->
      remote w1 (length (posts w1)) = Responds r ->
      exists w2,
        run (asgi_analysis c ra ip) w1 = (Ok (PDict d), w2)
        /\ run (async_wrapper func args kwargs) w
           = func args kwargs (set_calls (calls w ++ [mkCall args kwargs]) w2))
  /\ (forall R (func : Handler R) args kwargs (w w1 : World) c rf,
      run (get_client None) w = (Ok c, w1) ->
      remote w1 (length (posts w1)) = Responds r ->
      exists w2,
        run (flask_analysis c rf) w1 = (Ok (PDict d), w2)
        /\ run (sync_wrapper (Some rf) func args kwargs) w
           = func args kwargs (set_calls (calls w ++ [mkCall args kwargs]) w2))
  /\ (forall (call_next : Handler HttpResponse) (w1 : World) c ra ip,
      existsb (PyStr.startswith (a_path ra)) fastapi_exclude_paths = false ->
      a_client ra = Some ip ->
      remote w1 (length (posts w1)) = Responds r ->
      exists w2,
        run (asgi_analysis c ra ip) w1 = (Ok (PDict d), w2)
        /\ run (guardial_middleware c ra call_next) w1
           = call_next [ArgRequest ra] []
               (set_calls (calls w1 ++ [mkCall [ArgRequest ra] []]) w2))
  /\ (forall R (view : Handler R) args kwargs (w1 : World) c rf,
      existsb (PyStr.startswith (f_path rf)) flask_exclude_paths = false ->
      remote w1 (length (posts w1)) = Responds r ->
      exists w2,
        run (flask_analysis c rf) w1 = (Ok (PDict d), w2)
        /\ run (guardial_before_request c rf) w1 = (Ok tt, w2)
        /\ run (flask_dispatch (guardial_before_request c) rf view args kwargs) w1
           = view args kwargs (set_calls (calls w1 ++ [mkCall args kwargs]) w2)).
Proof.
  intros Hst Hbody Hd. apply lets_through_missing in Hd.
  split; [|split; [|split]].
  - intros R func args kwargs w w1 c ra ip Hc Hfind Hip Hr.
    pose proof (analyze_event_success c (a_method ra) (a_path ra) ip
                  (a_user_agent ra) (Some (a_headers ra)) (Some (a_query ra))
                  (Some (a_body ra)) w1 r (PDict d) Hr Hst Hbody) as Han.
    fold (asgi_analysis c ra ip) in Han.
    eexists. split; [exact Han|].
    rewrite (async_wrapper_run func args kwargs w w1 _ c ra ip d Hc Hfind Hip Han).
    rewrite Hd. unfold run, invoke. cbn [calls set_posts].
    by rewrite (get_client_keeps_calls _ _ _ _ Hc).
  - intros R func args kwargs w w1 c rf Hc Hr.
    pose proof (analyze_event_success c (f_method rf) (f_path rf)
                  (PyStr.or_else (f_remote_addr rf) "unknown")
                  (f_user_agent rf) (Some (f_headers rf))
                  (Some (f_query_string rf)) (Some (f_data rf))
                  w1 r (PDict d) Hr Hst Hbody) as Han.
    fold (flask_analysis c rf) in Han.
    eexists. split; [exact Han|].
    rewrite (sync_wrapper_run func args kwargs w w1 _ c rf d Hc Han).
    rewrite Hd. unfold run, invoke. cbn [calls set_posts].
    by rewrite (get_client_keeps_calls _ _ _ _ Hc).
  - intros call_next w1 c ra ip Hex Hip Hr.
    pose proof (analyze_event_success c (a_method ra) (a_path ra) ip
                  (a_user_agent ra) (Some (a_headers ra)) (Some (a_query ra))
                  (Some (a_body ra)) w1 r (PDict d) Hr Hst Hbody) as Han.
    fold (asgi_analysis c ra ip) in Han.
    eexists. split; [exact Han|].
    rewrite (guardial_middleware_run call_next w1 _ c ra ip d Hex Hip Han).
    rewrite Hd. reflexivity.
  - intros R view args kwargs w1 c rf Hex Hr.
    pose proof (analyze_event_success c (f_method rf) (f_path rf)
                  (PyStr.or_else (f_remote_addr rf) "unknown")
                  (f_user_agent rf) (Some (f_headers rf))
                  (Some (f_query_string rf)) (Some (f_data rf))
                  w1 r (PDict d) Hr Hst Hbody) as Han.
    fold (flask_analysis c rf) in Han.
    eexists. split; [exact Han|].
    rewrite (guardial_before_request_run w1 _ c rf d Hex Han).
    rewrite (flask_dispatch_run view args kwargs w1 _ c rf d Hex Han).
    rewrite Hd. split; reflexivity.
Qed.

Lemma missing_allowed_key_lets_through_witness :
  (exists w2,
     run (asgi_analysis SampleClient.first Sample.asgi_req "10.0.0.1")
         (SampleClient.after SampleRun.ok_bare) = (Ok Sample.bare, w2)
     /\ run (async_wrapper Sample.handler SampleRun.args SampleRun.kwargs)
            (SampleClient.before SampleRun.ok_bare)
        = Sample.handler SampleRun.args SampleRun.kwargs
            (set_calls (calls (SampleClient.before SampleRun.ok_bare)
                          ++ [mkCall SampleRun.args SampleRun.kwargs]) w2))
  /\ (exists w2,
        run (flask_analysis SampleClient.first Sample.flask_req)
            (SampleClient.after SampleRun.ok_bare) = (Ok Sample.bare, w2)
        /\ run (guardial_before_request SampleClient.first Sample.flask_req)
               (SampleClient.after SampleRun.ok_bare) = (Ok tt, w2)
        /\ run (flask_dispatch (guardial_before_request SampleClient.first)
                               Sample.flask_req Sample.handler SampleRun.args
                               SampleRun.kwargs)
               (SampleClient.after SampleRun.ok_bare)
           = Sample.handler SampleRun.args SampleRun.kwargs
               (set_calls (calls (SampleClient.after SampleRun.ok_bare)
                             ++ [mkCall SampleRun.args SampleRun.kwargs]) w2)).
Proof.
  pose proof (missing_allowed_key_lets_through Sample.bare_dict
                (mkResponse 200 "OK" "https://api.guardial.in/api/events"
                            (JsonValue Sample.bare))
                ltac:(simpl; lia) eq_refl ltac:(vm_compute; reflexivity))
    as (Ha & _ & _ & Hf).
  split.
  - exact (Ha pyval Sample.handler SampleRun.args SampleRun.kwargs
              (SampleClient.before SampleRun.ok_bare)
              (SampleClient.after SampleRun.ok_bare)
              SampleClient.first Sample.asgi_req "10.0.0.1"
              ltac:(vm_compute; reflexivity) eq_refl eq_refl eq_refl).
  - exact (Hf pyval Sample.handler SampleRun.args SampleRun.kwargs
              (SampleClient.after SampleRun.ok_bare)
              SampleClient.first Sample.flask_req
              ltac:(vm_compute; reflexivity) eq_refl).
Defined.

(** ** Excluded paths *)







(** ** The session identifier *)

Lemma analysis_call_run method path ip ua hs q body (w : World) c :
  _client w = Some c ->
  run (analysis_call method path ip ua hs q body) w
  = run (analyze_event c method path ip ua hs q body) w.
Proof.
  intros Hc. unfold analysis_call.
  by rewrite (run_bind_ok _ _ _ _ _ (get_client_cached None w c Hc)).
Qed.

Lemma later_keeps_session (w w' : World) (c : GuardialClient) :
  _client w = Some c ->
  later w w' ->
  _client w' = Some c
  /\ exists new, posts w' = (posts w ++ new)%list
                 /\ Forall (carries_session (session_id (config c))) new.
Proof.
  intros Hc Hlater. induction Hlater as [|w' method path ip ua hs q body _ IH].
  - split; [done|]. exists []. by rewrite app_nil_r.
  - destruct IH as (Hc' & new & Hposts & Hall).
    rewrite (analysis_call_run _ _ _ _ _ _ _ _ c Hc').
    destruct (run (analyze_event c method path ip ua hs q body) w')
      as [r w''] eqn:Hrun.
    apply analysis_frame in Hrun as (_ & Hcl & Hp). cbn [snd].
    split; [congruence|].
    exists (new ++ [event_post c (build_event c method path ip ua hs q body)])%list.
    split; [by rewrite Hp, Hposts, app_assoc|].
    apply Forall_app. split; [done|].
    apply Forall_singleton. by eexists.
Qed.

Lemma pretty_N_go_no_underscore (x : N) (s : string) :
  no_underscore s -> no_underscore (pretty_N_go x s).
Proof.
  revert s. induction (N.lt_wf_0 x) as [x _ IH]; intros s Hs.
  destruct (decide (x = 0)%N) as [->|Hx].
  - by rewrite pretty_N_go_0.
  - rewrite pretty_N_go_step by lia. apply IH.
    + apply N.div_lt; lia.
    + split; [|done]. unfold pretty_N_char. by repeat case_match.
Qed.

Lemma pretty_N_no_underscore (x : N) : no_underscore (pretty x).
Proof.
  unfold pretty, pretty_N. case_decide.
  - by split.
  - by apply pretty_N_go_no_underscore.
Qed.

Lemma pretty_Z_no_underscore (z : Z) : no_underscore (pretty z).
Proof.
  destruct z as [|p|p]; unfold pretty, pretty_Z.
  - by split.
  - apply pretty_N_no_underscore.
  - split; [done|]. apply pretty_N_no_underscore.
Qed.

(** Where the first underscore is decides both parts. *)
Lemma split_at_underscore (a b x y : string) :
  no_underscore a -> no_underscore b ->
  a ++ String "_" x = b ++ String "_" y -> a = b /\ x = y.
Proof.
  revert b. induction a as [|c a IH]; intros [|c' b] Ha Hb Heq; cbn in *.
  - by injection Heq as ->.
  - injection Heq as <- _. by destruct Hb.
  - injection Heq as -> _. by destruct Ha.
  - injection Heq as -> Heq. destruct Ha, Hb.
    destruct (IH b) as [-> ->]; done.
Qed.

Lemma append_String (c : ascii) (s t : string) :
  String c s ++ t = String c (s ++ t).
Proof. reflexivity. Qed.

Lemma append_Empty (t : string) : "" ++ t = t.
Proof. reflexivity. Qed.

Lemma session_id_inj (t1 t2 : Z) (h1 h2 : string) :
  "session_" ++ pretty t1 ++ "_" ++ h1 = "session_" ++ pretty t2 ++ "_" ++ h2 ->
  t1 = t2 /\ h1 = h2.
Proof.
  intros Heq. rewrite !append_String, !append_Empty in Heq.
  injection Heq as Heq.
  apply split_at_underscore in Heq as [Ht Hh];
    [|apply pretty_Z_no_underscore..].
  split; [|done]. by apply (inj pretty).
Qed.

Lemma fresh_session_id (w0 w : World) (c : GuardialClient) :
  _client w0 = None ->
  run (get_client None) w0 = (Ok c, w) ->
  session_id (config c)
  = "session_" ++ pretty (start_second w0) ++ "_" ++ uuid_prefix w0.
Proof.
  intros Hnone. rewrite get_client_run, Hnone, GuardialClient_init_run.
  unfold GuardialConfig_new. rewrite GuardialConfig_init_run. cbv zeta.
  destruct (PyStr.truthy _); [|done]. by intros [= <- _].
Qed.

Lemma config_session_id (a : ConfigArgs) (wa wa' : World) (cfg : GuardialConfig) :
  run (GuardialConfig_new a) wa = (Ok cfg, wa') ->
  session_id cfg
  = "session_" ++ pretty (start_second wa) ++ "_" ++ uuid_prefix wa
  /\ time_reads wa' = S (time_reads wa)
  /\ uuid_reads wa' = S (uuid_reads wa).
Proof.
  unfold GuardialConfig_new. rewrite GuardialConfig_init_run. cbv zeta.
  destruct (PyStr.truthy _); [|done]. by intros [= <- <-].
Qed.

(** C7 (amended). A session identifier is made each time a configuration
    is constructed, from the second of the clock and the first nine hex
    digits of a UUID read at that moment; for the global client that is
    once, when the first [get_client()] builds its configuration.  Every
    analysis call through a client posts the identifier of that client's
    configuration; so the analysis calls a process makes one after the
    other through the global client all post the same identifier, and
    the global client stays the same.  Two process initialisations get
    different identifiers whenever their seconds differ or their UUID
    prefixes differ, and the same identifier otherwise. *)
Theorem session_id_stable_within_process
    (w0 w w' : World) (arg : option GuardialConfig) (c : GuardialClient) :
  run (get_client arg) w0 = (Ok c, w) ->
  later w w' ->
  (_client w' = Some c
   /\ exists new, posts w' = (posts w ++ new)%list
                  /\ Forall (carries_session (session_id (config c))) new)
  /\ (forall arg', run (get_client arg') w' = (Ok c, w'))
  /\ (_client w0 = None -> arg = None ->
      session_id (config c)
      = "session_" ++ pretty (start_second w0) ++ "_" ++ uuid_prefix w0)
  /\ (forall a wa cfg wa',
        run (GuardialConfig_new a) wa = (Ok cfg, wa') ->
        session_id cfg
        = "session_" ++ pretty (start_second wa) ++ "_" ++ uuid_prefix wa
        /\ time_reads wa' = S (time_reads wa)
        /\ uuid_reads wa' = S (uuid_reads wa))
  /\ (forall c' method path ip ua hs q body w1,
        exists p,
          posts (snd (run (analyze_event c' method path ip ua hs q body) w1))
          = (posts w1 ++ [p])%list
          /\ carries_session (session_id (config c')) p)
  /\ (forall wb cb wb',
        _client w0 = None -> arg = None ->
        _client wb = None ->
        run (get_client None) wb = (Ok cb, wb') ->
        (start_second w0 <> start_second wb \/ uuid_prefix w0 <> uuid_prefix wb ->
         session_id (config c) <> session_id (config cb))
        /\ (start_second w0 = start_second wb ->
            uuid_prefix w0 = uuid_prefix wb ->
            session_id (config c) = session_id (config cb))).
Proof.
  intros Hinit Hlater.
  pose proof (get_client_sets _ _ _ _ Hinit) as Hc.
  pose proof (later_keeps_session w w' c Hc Hlater) as Hkeep.
  split; [exact Hkeep|].
  split; [intros arg'; apply get_client_cached; by destruct Hkeep|].
  split; [intros Hnone ->; by apply (fresh_session_id w0 w)|].
  split; [intros a wa cfg wa'; apply config_session_id|].
  split.
  - intros c' method path ip ua hs q body w1. eexists. split.
    + apply analyze_event_posts.
    + by eexists.
  - intros wb cb wb' Hnone -> Hnoneb Hb.
    rewrite (fresh_session_id w0 w c Hnone Hinit).
    rewrite (fresh_session_id wb wb' cb Hnoneb Hb).
    split.
    + intros Hdiff Heq. apply session_id_inj in Heq as [Ht Hh].
      by destruct Hdiff.
    + by intros -> ->.
Qed.

Lemma session_id_stable_within_process_witness :
  (_client SampleSession.after_two = Some SampleClient.first
   /\ exists new,
       posts SampleSession.after_two
       = (posts (SampleClient.after SampleClient.ok_allow) ++ new)%list
       /\ Forall (carries_session (session_id (config SampleClient.first))) new)
  /\ session_id (config SampleClient.first)
     = "session_" ++ pretty (start_second (SampleClient.before SampleClient.ok_allow))
         ++ "_" ++ uuid_prefix (SampleClient.before SampleClient.ok_allow)
  /\ session_id (config SampleClient.first)
     <> session_id (config SampleSession.client_c)
  /\ session_id (config SampleClient.first)
     = session_id (config SampleSession.client_b).
Proof.
  pose proof (session_id_stable_within_process
                (SampleClient.before SampleClient.ok_allow)
                (SampleClient.after SampleClient.ok_allow)
                SampleSession.after_two None SampleClient.first
                ltac:(vm_compute; reflexivity)
                (later_call _ _ "GET" "/b" "10.0.0.2" None None None None
                   (later_call _ _ "GET" "/a" "10.0.0.1" None None None None
                      (later_now _))))
    as (Hkeep & _ & Hmade & _ & _ & Hother).
  pose proof (Hother SampleSession.process_c SampleSession.client_c
                (set_client (Some SampleSession.client_c)
                   (SampleConfig.after_init SampleSession.process_c))
                eq_refl eq_refl eq_refl ltac:(vm_compute; reflexivity))
    as (Hdiff & _).
  pose proof (Hother SampleSession.process_b SampleSession.client_b
                (set_client (Some SampleSession.client_b)
                   (SampleConfig.after_init SampleSession.process_b))
                eq_refl eq_refl eq_refl ltac:(vm_compute; reflexivity))
    as (_ & Hsame).
  assert (start_second (SampleClient.before SampleClient.ok_allow)
          <> start_second SampleSession.process_c) as Hne
    by (vm_compute; intros [=]).
  split; [exact Hkeep|]. split; [exact (Hmade eq_refl eq_refl)|].
  split; [exact (Hdiff (or_introl Hne))|].
  exact (Hsame eq_refl eq_refl).
Defined.

(** C7 as stated fails in both of its parts.  Two processes that start in
    the same second with UUIDs that agree on the first nine hex digits get
    the same session identifier.  And one process can hold two
    identifiers: when two first calls of [get_client()] overlap, each
    builds a configuration with an identifier of its own, and the analysis
    calls made with the two clients post different identifiers. *)
Lemma session_ids_can_coincide_or_multiply :
  uuid_src SampleSession.process_a 0 <> uuid_src SampleSession.process_b 0
  /\ _client SampleSession.process_a = None
  /\ _client SampleSession.process_b = None
  /\ (exists ca wa cb wb,
       run (get_client None) SampleSession.process_a = (Ok ca, wa)
       /\ run (get_client None) SampleSession.process_b = (Ok cb, wb)
       /\ session_id (config ca) = "session_1700000000_123456789"
       /\ session_id (config cb) = "session_1700000000_123456789")
  /\ run_schedule SampleThreads.overlapping
       (AtTest None, AtTest None, SampleThreads.world)
     = (Returned (Some SampleThreads.client_a),
        Returned (Some SampleThreads.client_b), SampleThreads.raced)
  /\ exists pa pb,
       posts (snd (run (analyze_event SampleThreads.client_b "GET" "/b"
                          "10.0.0.2" None None None None)
                    (snd (run (analyze_event SampleThreads.client_a "GET" "/a"
                                 "10.0.0.1" None None None None)
                              SampleThreads.raced))))
       = [pa; pb]
       /\ carries_session "session_1700000000_123456789" pa
       /\ carries_session "session_1700000000_fedcba987" pb.
Proof.
  split; [discriminate|]. split; [reflexivity|]. split; [reflexivity|].
  split.
  { eexists _, _, _, _.
    split; [vm_compute; reflexivity|]. split; [vm_compute; reflexivity|].
    split; reflexivity. }
  split; [vm_compute; reflexivity|].
  eexists _, _. split; [vm_compute; reflexivity|].
  split; eexists; split; reflexivity.
Qed.

(** * Further properties *)

(** ** What the analysis calls do besides answering *)

(** X1. [analyze_event] and [prompt_guard] raise only what
    [requests.post] raised itself, and only when that is not an
    [Exception] (a [KeyboardInterrupt], say): every other outcome is a
    returned value. *)
Theorem analysis_raises_only_base_exceptions
    (self : GuardialClient) (w : World) (e : Exn)
    (method path ip : string) (ua : option string)
    (hs : option (gmap string string)) (q body : option string)
    (input : string) (context : option (gmap string pyval)) :
  (fst (run (analyze_event self method path ip ua hs q body) w) = Raise e
   <-> remote w (length (posts w)) = Raises e /\ is_Exception e = false)
  /\ (fst (run (prompt_guard self input context) w) = Raise e
      <-> remote w (length (posts w)) = Raises e /\ is_Exception e = false).
Proof.
  rewrite analyze_event_run, prompt_guard_run. cbv zeta. unfold attempt.
  destruct (remote w (length (posts w))) as [e0|r].
  - destruct (is_Exception e0) eqn:He0; cbn [fst]; split; split;
      try (intros [= <-]; done); try (intros [[= <-] ?]; congruence); done.
  - destruct (PyStr.truthy (http_error_msg r)); [|destruct (resp_body r)];
      cbn [is_Exception fst]; split; split; try done; by intros [? _].
Qed.

(** X2. Whatever the remote side does, one call of [analyze_event] or of
    [prompt_guard] makes exactly one [requests.post] (there is no retry),
    to the events or the guard URL of the configured endpoint, with the
    configured key in [X-API-Key] and the configured timeout; the
    environment, the global client and the handler log are untouched. *)
Theorem one_post_per_analysis
    (self : GuardialClient) (w : World)
    (method path ip : string) (ua : option string)
    (hs : option (gmap string string)) (q body : option string)
    (input : string) (context : option (gmap string pyval)) :
  (exists p,
     posts (snd (run (analyze_event self method path ip ua hs q body) w))
       = (posts w ++ [p])%list
     /\ post_url p = endpoint (config self) ++ "/api/events"
     /\ post_json p
        = EventJson (build_event self method path ip ua hs q body)
     /\ post_headers p !! "X-API-Key" = Some (api_key (config self))
     /\ post_timeout p = timeout (config self))
  /\ (exists p,
        posts (snd (run (prompt_guard self input context) w))
          = (posts w ++ [p])%list
        /\ post_url p = endpoint (config self) ++ "/api/llm/guard"
        /\ post_json p = GuardJson input (default ∅ context)
        /\ post_headers p !! "X-API-Key" = Some (api_key (config self))
        /\ post_timeout p = timeout (config self))
  /\ (let w' := snd (run (analyze_event self method path ip ua hs q body) w) in
      environ w' = environ w /\ _client w' = _client w /\ calls w' = calls w)
  /\ (let w' := snd (run (prompt_guard self input context) w) in
      environ w' = environ w /\ _client w' = _client w /\ calls w' = calls w).
Proof.
  split; [|split; [|split]].
  - exists (event_post self (build_event self method path ip ua hs q body)).
    split; [apply analyze_event_posts|].
    repeat split; try apply lookup_singleton_eq.
  - exists (guard_post self input (default ∅ context)).
    split; [|repeat split; try apply lookup_singleton_eq].
    rewrite prompt_guard_run. cbv zeta.
    destruct (attempt _) as [v|e]; [reflexivity|].
    destruct (is_Exception e); [|reflexivity].
    unfold debug_log. by destruct (debug (config self)).
  - pose proof (analyze_event_frame self method path ip ua hs q body w) as H.
    cbv zeta in *. tauto.
  - cbv zeta. rewrite prompt_guard_run. cbv zeta.
    destruct (attempt _) as [v|e]; [done|].
    destruct (is_Exception e); [|done].
    unfold debug_log. by destruct (debug (config self)).
Qed.

(** X3. Standard output: without the debug flag neither call prints
    anything; with it, a call prints exactly one line, and only when it
    falls back, the line being the fixed prefix followed by the text of
    the exception. *)
Theorem prints_only_when_debugging_a_failure
    (self : GuardialClient) (w : World)
    (method path ip : string) (ua : option string)
    (hs : option (gmap string string)) (q body : option string)
    (input : string) (context : option (gmap string pyval)) :
  let wa := snd (run (analyze_event self method path ip ua hs q body) w) in
  let wg := snd (run (prompt_guard self input context) w) in
  (debug (config self) = false -> stdout wa = stdout w /\ stdout wg = stdout w)
  /\ (forall v, attempt (remote w (length (posts w))) = Ok v ->
        stdout wa = stdout w /\ stdout wg = stdout w)
  /\ (forall e, debug (config self) = true ->
        attempt (remote w (length (posts w))) = Raise e ->
        is_Exception e = true ->
        stdout wa
          = (stdout w ++ [("[Guardial SDK] Analysis failed: " ++ exn_str e)%string])%list
        /\ stdout wg
          = (stdout w ++ [("[Guardial SDK] LLM Guard failed: " ++ exn_str e)%string])%list).
Proof.
  cbv zeta. rewrite analyze_event_run, prompt_guard_run. cbv zeta.
  unfold debug_log. split; [|split].
  - intros ->. destruct (attempt _) as [v|e]; [done|].
    by destruct (is_Exception e).
  - intros v ->. done.
  - intros e -> -> ->. done.
Qed.

(** ** The adapters on the other results of the analysis *)

Lemma fallback_lets_through (e : Exn) :
  exists d, fallback true e = PDict d /\ lets_through d = true.
Proof.
  eexists. split; [reflexivity|].
  unfold lets_through. by rewrite lookup_insert_eq.
Qed.

Lemma analyze_event_fails_open self method path ip ua hs q body (w : World) :
  remote_call_fails (remote w (length (posts w))) ->
  exists e w2,
    run (analyze_event self method path ip ua hs q body) w
      = (Ok (fallback true e), w2)
    /\ posts w2 = (posts w ++ [event_post self
                     (build_event self method path ip ua hs q body)])%list.
Proof.
  intros Hfail. destruct (attempt_fails _ Hfail) as (e & Hatt & Hexc).
  exists e. eexists. split.
  - rewrite analyze_event_run. cbv zeta. rewrite Hatt, Hexc. reflexivity.
  - unfold debug_log. by destruct (debug (config self)).
Qed.

(** X4. Fail open, end to end: when the remote call of the analysis fails
    (an exception of [requests.post], a 4xx or 5xx status, a body that is
    not JSON), every adapter lets the request through to the handler,
    after the one post that failed. *)
Theorem failed_analysis_reaches_handler (o : PostOutcome) :
  remote_call_fails o ->
  (forall R (func : Handler R) args kwargs (w w1 : World) c ra ip,
      run (get_client None) w = (Ok c, w1) ->
      find_request args = Some ra ->
      a_client ra = Some ip ->
      remote w1 (length (posts w1)) = o ->
      exists w2,
        run (async_wrapper func args kwargs) w
          = func args kwargs (set_calls (calls w ++ [mkCall args kwargs]) w2)
        /\ length (posts w2) = S (length (posts w)))
  /\ (forall R (func : Handler R) args kwargs (w w1 : World) c rf,
      run (get_client None) w = (Ok c, w1) ->
      remote w1 (length (posts w1)) = o ->
      exists w2,
        run (sync_wrapper (Some rf) func args kwargs) w
          = func args kwargs (set_calls (calls w ++ [mkCall args kwargs]) w2)
        /\ length (posts w2) = S (length (posts w)))
  /\ (forall (call_next : Handler HttpResponse) (w1 : World) c ra ip,
      existsb (PyStr.startswith (a_path ra)) fastapi_exclude_paths = false ->
      a_client ra = Some ip ->
      remote w1 (length (posts w1)) = o ->
      exists w2,
        run (guardial_middleware c ra call_next) w1
          = call_next [ArgRequest ra] []
              (set_calls (calls w1 ++ [mkCall [ArgRequest ra] []]) w2)
        /\ length (posts w2) = S (length (posts w1)))
  /\ (forall (w1 : World) c rf,
      existsb (PyStr.startswith (f_path rf)) flask_exclude_paths = false ->
      remote w1 (length (posts w1)) = o ->
      exists w2,
        run (guardial_before_request c rf) w1 = (Ok tt, w2)
        /\ length (posts w2) = S (length (posts w1))).
Proof.
  intros Hfail. split; [|split; [|split]].
  - intros R func args kwargs w w1 c ra ip Hc Hfind Hip Hr.
    rewrite <- Hr in Hfail.
    destruct (analyze_event_fails_open c (a_method ra) (a_path ra) ip
                (a_user_agent ra) (Some (a_headers ra)) (Some (a_query ra))
                (Some (a_body ra)) w1 Hfail) as (e & w2 & Han & Hp).
    destruct (fallback_lets_through e) as (d & Hd & Hlet). rewrite Hd in Han.
    fold (asgi_analysis c ra ip) in Han. exists w2.
    rewrite (async_wrapper_run func args kwargs w w1 w2 c ra ip d Hc Hfind Hip Han).
    rewrite Hlet. unfold run, invoke.
    rewrite (asgi_analysis_calls _ _ _ _ _ _ Han).
    rewrite (get_client_keeps_calls _ _ _ _ Hc). split; [done|].
    apply get_client_frame in Hc as (Hposts & _).
    rewrite Hp, length_app, Hposts. cbn. lia.
  - intros R func args kwargs w w1 c rf Hc Hr.
    rewrite <- Hr in Hfail.
    destruct (analyze_event_fails_open c (f_method rf) (f_path rf)
                (PyStr.or_else (f_remote_addr rf) "unknown")
                (f_user_agent rf) (Some (f_headers rf))
                (Some (f_query_string rf)) (Some (f_data rf)) w1 Hfail)
      as (e & w2 & Han & Hp).
    destruct (fallback_lets_through e) as (d & Hd & Hlet). rewrite Hd in Han.
    fold (flask_analysis c rf) in Han. exists w2.
    rewrite (sync_wrapper_run func args kwargs w w1 w2 c rf d Hc Han).
    rewrite Hlet. unfold run, invoke.
    rewrite (flask_analysis_calls _ _ _ _ _ Han).
    rewrite (get_client_keeps_calls _ _ _ _ Hc). split; [done|].
    apply get_client_frame in Hc as (Hposts & _).
    rewrite Hp, length_app, Hposts. cbn. lia.
  - intros call_next w1 c ra ip Hex Hip Hr.
    rewrite <- Hr in Hfail.
    destruct (analyze_event_fails_open c (a_method ra) (a_path ra) ip
                (a_user_agent ra) (Some (a_headers ra)) (Some (a_query ra))
                (Some (a_body ra)) w1 Hfail) as (e & w2 & Han & Hp).
    destruct (fallback_lets_through e) as (d & Hd & Hlet). rewrite Hd in Han.
    fold (asgi_analysis c ra ip) in Han. exists w2.
    rewrite (guardial_middleware_run call_next w1 w2 c ra ip d Hex Hip Han).
    rewrite Hlet. unfold run, invoke.
    rewrite (asgi_analysis_calls _ _ _ _ _ _ Han). split; [done|].
    rewrite Hp, length_app. cbn. lia.
  - intros w1 c rf Hex Hr.
    rewrite <- Hr in Hfail.
    destruct (analyze_event_fails_open c (f_method rf) (f_path rf)
                (PyStr.or_else (f_remote_addr rf) "unknown")
                (f_user_agent rf) (Some (f_headers rf))
                (Some (f_query_string rf)) (Some (f_data rf)) w1 Hfail)
      as (e & w2 & Han & Hp).
    destruct (fallback_lets_through e) as (d & Hd & Hlet). rewrite Hd in Han.
    fold (flask_analysis c rf) in Han. exists w2.
    rewrite (guardial_before_request_run w1 w2 c rf d Hex Han).
    rewrite Hlet. split; [done|].
    rewrite Hp, length_app. cbn. lia.
Qed.

Lemma failed_analysis_reaches_handler_witness :
  (exists w2,
     run (sync_wrapper (Some Sample.flask_req) Sample.handler SampleRun.args
                       SampleRun.kwargs)
         (SampleClient.before (Raises (RequestException Timeout "timed out")))
     = Sample.handler SampleRun.args SampleRun.kwargs
         (set_calls (calls (SampleClient.before
                              (Raises (RequestException Timeout "timed out")))
                       ++ [mkCall SampleRun.args SampleRun.kwargs]) w2)
     /\ length (posts w2)
        = S (length (posts (SampleClient.before
                              (Raises (RequestException Timeout "timed out"))))))
  /\ (exists w2,
        run (guardial_before_request SampleClient.first Sample.flask_req)
            (SampleClient.after (Raises (RequestException Timeout "timed out")))
        = (Ok tt, w2)
        /\ length (posts w2)
           = S (length (posts (SampleClient.after
                                 (Raises (RequestException Timeout "timed out")))))).
Proof.
  pose proof (failed_analysis_reaches_handler
                (Raises (RequestException Timeout "timed out")) eq_refl)
    as (_ & Hs & _ & Hf).
  split.
  - exact (Hs pyval Sample.handler SampleRun.args SampleRun.kwargs
              (SampleClient.before (Raises (RequestException Timeout "timed out")))
              (SampleClient.after (Raises (RequestException Timeout "timed out")))
              SampleClient.first Sample.flask_req
              ltac:(vm_compute; reflexivity) eq_refl).
  - exact (Hf (SampleClient.after (Raises (RequestException Timeout "timed out")))
              SampleClient.first Sample.flask_req
              ltac:(vm_compute; reflexivity) eq_refl).
Defined.

Lemma lets_through_value (d : gmap string pyval) (v : pyval) :
  d !! "allowed" = Some v -> lets_through d = Py.truthy v.
Proof. intros H. unfold lets_through. by rewrite H. Qed.

(** The floats that compare equal to zero are [0.0] and [-0.0]. *)
Lemma float_eqb_zero (f : float) :
  PrimFloat.eqb f PrimFloat.zero = true
  <-> f = PrimFloat.zero \/ f = PrimFloat.neg_zero.
Proof.
  split.
  - rewrite FloatAxioms.eqb_spec.
    destruct (FloatOps.Prim2SF f) as [s| | |s m e] eqn:Hf.
    + intros _. destruct s; [right|left]; by apply FloatAxioms.Prim2SF_inj.
    + destruct s; discriminate.
    + discriminate.
    + destruct s; discriminate.
  - by intros [-> | ->].
Qed.

(** The falsy values, one by one. *)
Lemma truthy_false (v : pyval) :
  Py.truthy v = false
  <-> v = PNone \/ v = PBool false \/ v = PInt 0 \/ v = PFloat PrimFloat.zero
      \/ v = PFloat PrimFloat.neg_zero \/ v = PStr "" \/ v = PList []
      \/ v = PDict ∅.
Proof.
  split.
  - destruct v as [|b|z|f|s|l|d]; cbn.
    + auto.
    + intros ->. auto.
    + intros Hz. apply negb_false_iff, Z.eqb_eq in Hz. subst. auto 10.
    + intros Hf. apply negb_false_iff, float_eqb_zero in Hf as [-> | ->];
        auto 10.
    + destruct s; [auto 10|done].
    + destruct l; [auto 10|done].
    + intros Hd. apply negb_false_iff, bool_decide_eq_true in Hd. subst.
      auto 10.
  - intros [->|[->|[->|[->|[->|[->|[->| ->]]]]]]]; reflexivity.
Qed.

Lemma rejected_is_not_truthy (v : pyval) (rejected : bool) :
  (rejected = true
   <-> v = PNone \/ v = PBool false \/ v = PInt 0 \/ v = PFloat PrimFloat.zero
       \/ v = PFloat PrimFloat.neg_zero \/ v = PStr "" \/ v = PList []
       \/ v = PDict ∅) ->
  Py.truthy v = negb rejected.
Proof.
  rewrite <- truthy_false. intros Hr.
  destruct rejected, (Py.truthy v); try done.
  - by destruct Hr as [Hr _]; specialize (Hr eq_refl).
  - by destruct Hr as [_ Hr]; specialize (Hr eq_refl).
Qed.

(** X5. The flag is read by truthiness, not compared with [False]: when
    the result has [allowed = v], every adapter rejects the request
    exactly when [v] is one of [None], [False], [0], [0.0], [-0.0], the
    empty string, the empty list and the empty dict, and calls the handler
    for every other value (so also for the string ["false"]).  Rejecting
    is: [HTTPException] with status 403 in the async wrapper, [abort] with
    403 in the sync wrapper and the Flask hook, and from the FastAPI
    middleware a returned response with status 403, media type
    [application/json] and the JSON object with the one key [error] as
    content (the character 034 is the double quote). *)
Theorem decision_is_by_truthiness
    (d : gmap string pyval) (v : pyval) (rejected : bool) :
  d !! "allowed" = Some v ->
  (rejected = true
   <-> v = PNone \/ v = PBool false \/ v = PInt 0 \/ v = PFloat PrimFloat.zero
       \/ v = PFloat PrimFloat.neg_zero \/ v = PStr "" \/ v = PList []
       \/ v = PDict ∅) ->
  (forall R (func : Handler R) args kwargs (w w1 w2 : World) c ra ip,
      run (get_client None) w = (Ok c, w1) ->
      find_request args = Some ra ->
      a_client ra = Some ip ->
      run (asgi_analysis c ra ip) w1 = (Ok (PDict d), w2) ->
      run (async_wrapper func args kwargs) w
      = if rejected
        then (Raise (FastAPIHTTPException 403 "Request blocked by security policy"),
              w2)
        else func args kwargs (set_calls (calls w2 ++ [mkCall args kwargs]) w2))
  /\ (forall R (func : Handler R) args kwargs (w w1 w2 : World) c rf,
      run (get_client None) w = (Ok c, w1) ->
      run (flask_analysis c rf) w1 = (Ok (PDict d), w2) ->
      run (sync_wrapper (Some rf) func args kwargs) w
      = if rejected
        then (Raise (WerkzeugAbort 403 "Request blocked by security policy"), w2)
        else func args kwargs (set_calls (calls w2 ++ [mkCall args kwargs]) w2))
  /\ (forall (call_next : Handler HttpResponse) (w1 w2 : World) c ra ip,
      existsb (PyStr.startswith (a_path ra)) fastapi_exclude_paths = false ->
      a_client ra = Some ip ->
      run (asgi_analysis c ra ip) w1 = (Ok (PDict d), w2) ->
      run (guardial_middleware c ra call_next) w1
      = if rejected
        then (Ok (mkHttp
                    ("{" ++ String "034" ("error" ++ String "034" (": "
                       ++ String "034" ("Request blocked by security policy"
                       ++ String "034" "}"))))%string
                    403 "application/json"), w2)
        else call_next [ArgRequest ra] []
               (set_calls (calls w2 ++ [mkCall [ArgRequest ra] []]) w2))
  /\ (forall (w1 w2 : World) c rf,
      existsb (PyStr.startswith (f_path rf)) flask_exclude_paths = false ->
      run (flask_analysis c rf) w1 = (Ok (PDict d), w2) ->
      run (guardial_before_request c rf) w1
      = if rejected
        then (Raise (WerkzeugAbort 403 "Request blocked by security policy"), w2)
        else (Ok tt, w2)).
Proof.
  intros Hv Hr. apply lets_through_value in Hv.
  rewrite (rejected_is_not_truthy v rejected Hr) in Hv.
  split; [|split; [|split]].
  - intros R func args kwargs w w1 w2 c ra ip Hc Hfind Hip Han.
    rewrite (async_wrapper_run func args kwargs w w1 w2 c ra ip d
               Hc Hfind Hip Han), Hv.
    by destruct rejected.
  - intros R func args kwargs w w1 w2 c rf Hc Han.
    rewrite (sync_wrapper_run func args kwargs w w1 w2 c rf d Hc Han), Hv.
    by destruct rejected.
  - intros call_next w1 w2 c ra ip Hex Hip Han.
    rewrite (guardial_middleware_run call_next w1 w2 c ra ip d Hex Hip Han), Hv.
    by destruct rejected.
  - intros w1 w2 c rf Hex Han.
    rewrite (guardial_before_request_run w1 w2 c rf d Hex Han), Hv.
    by destruct rejected.
Qed.

Lemma decision_is_by_truthiness_witness :
  run (guardial_before_request SampleClient.first Sample.flask_req)
      (SampleClient.after
         (Sample.answer 200 "OK" (PDict SampleAnswers.quoted_false)))
  = (Ok tt,
     SampleRun.analysed_flask
       (Sample.answer 200 "OK" (PDict SampleAnswers.quoted_false)))
  /\ run (guardial_before_request SampleClient.first Sample.flask_req)
         (SampleClient.after
            (Sample.answer 200 "OK" (PDict SampleAnswers.null_flag)))
     = (Raise (WerkzeugAbort 403 "Request blocked by security policy"),
        SampleRun.analysed_flask
          (Sample.answer 200 "OK" (PDict SampleAnswers.null_flag)))
  /\ run (guardial_middleware SampleClient.first Sample.asgi_req Sample.pipeline)
         (SampleClient.after
            (Sample.answer 200 "OK" (PDict SampleAnswers.zero_flag)))
     = (Ok (mkHttp
              ("{" ++ String "034" ("error" ++ String "034" (": "
                 ++ String "034" ("Request blocked by security policy"
                 ++ String "034" "}"))))%string
              403 "application/json"),
        SampleRun.analysed_asgi
          (Sample.answer 200 "OK" (PDict SampleAnswers.zero_flag))).
Proof.
  pose proof (decision_is_by_truthiness SampleAnswers.quoted_false
                (PStr "false") false ltac:(vm_compute; reflexivity)
                ltac:(split; [discriminate|];
                       intros [H|[H|[H|[H|[H|[H|[H|H]]]]]]]; discriminate H))
    as (_ & _ & _ & Hq).
  pose proof (decision_is_by_truthiness SampleAnswers.null_flag
                PNone true ltac:(vm_compute; reflexivity)
                ltac:(split; [by left|reflexivity]))
    as (_ & _ & _ & Hn).
  pose proof (decision_is_by_truthiness SampleAnswers.zero_flag
                (PFloat PrimFloat.neg_zero) true ltac:(vm_compute; reflexivity)
                ltac:(split; [by do 4 right; left|reflexivity]))
    as (_ & _ & Hz & _).
  split; [|split].
  - exact (Hq (SampleClient.after
                 (Sample.answer 200 "OK" (PDict SampleAnswers.quoted_false)))
              (SampleRun.analysed_flask
                 (Sample.answer 200 "OK" (PDict SampleAnswers.quoted_false)))
              SampleClient.first Sample.flask_req
              ltac:(vm_compute; reflexivity) ltac:(vm_compute; reflexivity)).
  - exact (Hn (SampleClient.after
                 (Sample.answer 200 "OK" (PDict SampleAnswers.null_flag)))
              (SampleRun.analysed_flask
                 (Sample.answer 200 "OK" (PDict SampleAnswers.null_flag)))
              SampleClient.first Sample.flask_req
              ltac:(vm_compute; reflexivity) ltac:(vm_compute; reflexivity)).
  - exact (Hz Sample.pipeline
              (SampleClient.after
                 (Sample.answer 200 "OK" (PDict SampleAnswers.zero_flag)))
              (SampleRun.analysed_asgi
                 (Sample.answer 200 "OK" (PDict SampleAnswers.zero_flag)))
              SampleClient.first Sample.asgi_req "10.0.0.1"
              ltac:(vm_compute; reflexivity) eq_refl
              ltac:(vm_compute; reflexivity)).
Defined.

(** The analysis returned [v], which is no dictionary and whose type is
    called [name]. *)
Ltac by_bad_analysis Han Hv :=
  unfold run, mbind, M_bind, bind, ret in *; rewrite Han;
  destruct Hv as [[-> ->]|[[[? ->] ->]|[[[? ->] ->]|[[[? ->] ->]
                 |[[[? ->] ->]|[[? ->] ->]]]]]];
  reflexivity.

(** X6. A result that is not a dictionary (the remote side answered with
    a JSON null, boolean, number, string or list) is neither allowed nor
    rejected: [analysis.get] raises [AttributeError] out of every adapter,
    with the message ['T' object has no attribute 'get'] where [T] is the
    name of the value's type ([NoneType], [bool], [int], [float], [str],
    [list]), and the handler is not called. *)
Theorem non_dict_analysis_raises (v : pyval) (name : string) :
  (v = PNone /\ name = "NoneType")
  \/ ((exists b, v = PBool b) /\ name = "bool")
  \/ ((exists z, v = PInt z) /\ name = "int")
  \/ ((exists f, v = PFloat f) /\ name = "float")
  \/ ((exists s, v = PStr s) /\ name = "str")
  \/ ((exists l, v = PList l) /\ name = "list") ->
  (forall R (func : Handler R) args kwargs (w w1 w2 : World) c ra ip,
      run (get_client None) w = (Ok c, w1) ->
      find_request args = Some ra ->
      a_client ra = Some ip ->
      run (asgi_analysis c ra ip) w1 = (Ok v, w2) ->
      run (async_wrapper func args kwargs) w
        = (Raise (AttributeError
                    ("'" ++ name ++ "' object has no attribute 'get'")), w2)
      /\ calls w2 = calls w)
  /\ (forall R (func : Handler R) args kwargs (w w1 w2 : World) c rf,
      run (get_client None) w = (Ok c, w1) ->
      run (flask_analysis c rf) w1 = (Ok v, w2) ->
      run (sync_wrapper (Some rf) func args kwargs) w
        = (Raise (AttributeError
                    ("'" ++ name ++ "' object has no attribute 'get'")), w2)
      /\ calls w2 = calls w)
  /\ (forall (call_next : Handler HttpResponse) (w1 w2 : World) c ra ip,
      existsb (PyStr.startswith (a_path ra)) fastapi_exclude_paths = false ->
      a_client ra = Some ip ->
      run (asgi_analysis c ra ip) w1 = (Ok v, w2) ->
      run (guardial_middleware c ra call_next) w1
        = (Raise (AttributeError
                    ("'" ++ name ++ "' object has no attribute 'get'")), w2)
      /\ calls w2 = calls w1)
  /\ (forall (w1 w2 : World) c rf,
      existsb (PyStr.startswith (f_path rf)) flask_exclude_paths = false ->
      run (flask_analysis c rf) w1 = (Ok v, w2) ->
      run (guardial_before_request c rf) w1
        = (Raise (AttributeError
                    ("'" ++ name ++ "' object has no attribute 'get'")), w2)).
Proof.
  intros Hv. split; [|split; [|split]].
  - intros R func args kwargs w w1 w2 c ra ip Hc Hfind Hip Han.
    split.
    + unfold async_wrapper. rewrite (run_bind_ok _ _ _ _ _ Hc), Hfind.
      unfold asgi_client_host. rewrite Hip. unfold asgi_analysis in Han.
      by_bad_analysis Han Hv.
    + rewrite (asgi_analysis_calls _ _ _ _ _ _ Han).
      apply (get_client_keeps_calls _ _ _ _ Hc).
  - intros R func args kwargs w w1 w2 c rf Hc Han.
    split.
    + unfold sync_wrapper. rewrite (run_bind_ok _ _ _ _ _ Hc).
      unfold flask_analysis in Han. by_bad_analysis Han Hv.
    + rewrite (flask_analysis_calls _ _ _ _ _ Han).
      apply (get_client_keeps_calls _ _ _ _ Hc).
  - intros call_next w1 w2 c ra ip Hex Hip Han.
    split; [|apply (asgi_analysis_calls _ _ _ _ _ _ Han)].
    unfold guardial_middleware. rewrite Hex.
    unfold asgi_client_host. rewrite Hip. unfold asgi_analysis in Han.
    by_bad_analysis Han Hv.
  - intros w1 w2 c rf Hex Han.
    unfold guardial_before_request. rewrite Hex.
    unfold flask_analysis in Han. by_bad_analysis Han Hv.
Qed.

Lemma non_dict_analysis_raises_witness :
  run (guardial_middleware SampleClient.first Sample.asgi_req Sample.pipeline)
      (SampleClient.after (Sample.answer 200 "OK" (PList [])))
  = (Raise (AttributeError "'list' object has no attribute 'get'"),
     SampleRun.analysed_asgi (Sample.answer 200 "OK" (PList [])))
  /\ calls (SampleRun.analysed_asgi (Sample.answer 200 "OK" (PList [])))
     = calls (SampleClient.after (Sample.answer 200 "OK" (PList []))).
Proof.
  exact (proj1 (proj2 (proj2
           (non_dict_analysis_raises (PList []) "list"
              ltac:(do 5 right; split; [by eexists|reflexivity]))))
           Sample.pipeline
           (SampleClient.after (Sample.answer 200 "OK" (PList [])))
           (SampleRun.analysed_asgi (Sample.answer 200 "OK" (PList [])))
           SampleClient.first Sample.asgi_req "10.0.0.1"
           ltac:(vm_compute; reflexivity) eq_refl
           ltac:(vm_compute; reflexivity)).
Defined.

(** ** When the wrappers of [protect] do not analyse *)

Lemma find_request_none (args : list Arg) :
  find_request args = None <-> no_request args.
Proof.
  unfold no_request. induction args as [|[r|v] args IH]; cbn.
  - split; [constructor|done].
  - split; [done|]. intros H. apply Forall_cons in H as [H _]. by destruct (H r).
  - rewrite IH. split.
    + intros H. by constructor.
    + intros H. by apply Forall_cons in H as [_ H].
Qed.

(** X7. The async wrapper looks for the request among the positional
    arguments only.  When none of them is a request (also when a request
    is passed by keyword), and likewise in the sync wrapper outside a Flask
    request context, the handler is called without any analysis: nothing
    is posted and nothing can be rejected. *)
Theorem protect_without_request_does_not_analyse
    {R} (func : Handler R) (args : list Arg) (kwargs : list (string * Arg))
    (w w1 : World) (c : GuardialClient) :
  run (get_client None) w = (Ok c, w1) ->
  (no_request args ->
   run (async_wrapper func args kwargs) w
   = func args kwargs (set_calls (calls w ++ [mkCall args kwargs]) w1))
  /\ run (sync_wrapper None func args kwargs) w
     = func args kwargs (set_calls (calls w ++ [mkCall args kwargs]) w1)
  /\ posts w1 = posts w.
Proof.
  intros Hc.
  pose proof (get_client_keeps_calls _ _ _ _ Hc) as Hcalls.
  split; [|split].
  - intros Hno. apply find_request_none in Hno.
    unfold async_wrapper. rewrite (run_bind_ok _ _ _ _ _ Hc), Hno.
    unfold run, mbind, M_bind, bind, ret, invoke. by rewrite Hcalls.
  - unfold sync_wrapper. rewrite (run_bind_ok _ _ _ _ _ Hc).
    unfold run, mbind, M_bind, bind, ret, invoke. by rewrite Hcalls.
  - by apply get_client_frame in Hc as (? & _).
Qed.

Lemma protect_without_request_does_not_analyse_witness :
  run (async_wrapper Sample.handler [ArgValue (PInt 7)]
                     [("request", ArgRequest Sample.asgi_req)])
      (SampleClient.before SampleRun.ok_deny)
  = (Ok (PStr "handled"),
     set_calls [mkCall [ArgValue (PInt 7)]
                       [("request", ArgRequest Sample.asgi_req)]]
               (SampleClient.after SampleRun.ok_deny))
  /\ posts (SampleClient.after SampleRun.ok_deny)
     = posts (SampleClient.before SampleRun.ok_deny).
Proof.
  pose proof (protect_without_request_does_not_analyse Sample.handler
                [ArgValue (PInt 7)] [("request", ArgRequest Sample.asgi_req)]
                (SampleClient.before SampleRun.ok_deny)
                (SampleClient.after SampleRun.ok_deny) SampleClient.first
                ltac:(vm_compute; reflexivity)) as (Ha & _ & Hp).
  split; [|exact Hp].
  exact (Ha ltac:(repeat constructor; discriminate)).
Defined.

Lemma get_client_without_key (w : World) :
  _client w = None ->
  PyStr.truthy (default "" (environ w !! "GUARDIAL_API_KEY")) = false ->
  run (get_client None) w
  = (Raise (ValueError missing_key_msg),
     set_uuid_reads (S (uuid_reads w)) (set_time_reads (S (time_reads w)) w)).
Proof.
  intros Hnone Hkey. rewrite get_client_run, Hnone, GuardialClient_init_run.
  unfold GuardialConfig_new. rewrite GuardialConfig_init_run. cbv zeta.
  cbn [arg_api_key no_args PyStr.or_else]. by rewrite Hkey.
Qed.

(** X8. Without an API key (no client yet, [GUARDIAL_API_KEY] unset or
    empty) nothing of the module can be put to work: a decorated handler
    raises [ValueError] on every call, before the handler runs and even
    when there is no request to analyse, and both middleware registrations
    raise it at registration; nothing is posted and no client is stored. *)
Theorem no_key_no_protection
    {R} (func : Handler R) (request : option FlaskRequest)
    (args : list Arg) (kwargs : list (string * Arg)) (w : World) :
  _client w = None ->
  PyStr.truthy (default "" (environ w !! "GUARDIAL_API_KEY")) = false ->
  exists w1,
    run (async_wrapper func args kwargs) w = (Raise (ValueError missing_key_msg), w1)
    /\ run (sync_wrapper request func args kwargs) w
       = (Raise (ValueError missing_key_msg), w1)
    /\ fst (run (fastapi_middleware None) w) = Raise (ValueError missing_key_msg)
    /\ fst (run (flask_middleware None) w) = Raise (ValueError missing_key_msg)
    /\ calls w1 = calls w /\ posts w1 = posts w /\ _client w1 = None.
Proof.
  intros Hnone Hkey.
  pose proof (get_client_without_key w Hnone Hkey) as Hget.
  eexists. split; [|split; [|split; [|split]]].
  - unfold async_wrapper. rewrite run_bind, Hget. reflexivity.
  - unfold sync_wrapper. rewrite run_bind, Hget. reflexivity.
  - rewrite fastapi_middleware_run, Hget. reflexivity.
  - rewrite flask_middleware_run, Hget. reflexivity.
  - by repeat split.
Qed.

Lemma no_key_no_protection_witness :
  exists w1,
    run (async_wrapper Sample.handler SampleRun.args SampleRun.kwargs)
        SampleNoKey.world
    = (Raise (ValueError missing_key_msg), w1)
    /\ run (sync_wrapper (Some Sample.flask_req) Sample.handler SampleRun.args
                         SampleRun.kwargs) SampleNoKey.world
       = (Raise (ValueError missing_key_msg), w1)
    /\ fst (run (fastapi_middleware None) SampleNoKey.world)
       = Raise (ValueError missing_key_msg)
    /\ fst (run (flask_middleware None) SampleNoKey.world)
       = Raise (ValueError missing_key_msg)
    /\ calls w1 = calls SampleNoKey.world /\ posts w1 = posts SampleNoKey.world
    /\ _client w1 = None.
Proof.
  exact (no_key_no_protection Sample.handler (Some Sample.flask_req)
           SampleRun.args SampleRun.kwargs SampleNoKey.world eq_refl eq_refl).
Defined.

(** X9. A request whose [client] is [None] cannot be analysed by the
    FastAPI adapters: reading [request.client.host] raises
    [AttributeError] before anything is posted, and the handler is not
    called. *)
Theorem request_without_client_raises
    (ra : AsgiRequest) (c : GuardialClient) (w w1 : World) :
  a_client ra = None ->
  (forall R (func : Handler R) args kwargs,
      run (get_client None) w = (Ok c, w1) ->
      find_request args = Some ra ->
      run (async_wrapper func args kwargs) w
      = (Raise (AttributeError "'NoneType' object has no attribute 'host'"), w1)
      /\ posts w1 = posts w /\ calls w1 = calls w)
  /\ (forall (call_next : Handler HttpResponse),
      existsb (PyStr.startswith (a_path ra)) fastapi_exclude_paths = false ->
      run (guardial_middleware c ra call_next) w
      = (Raise (AttributeError "'NoneType' object has no attribute 'host'"), w)).
Proof.
  intros Hnone. split.
  - intros R func args kwargs Hc Hfind. split.
    + unfold async_wrapper. rewrite (run_bind_ok _ _ _ _ _ Hc), Hfind.
      unfold asgi_client_host. rewrite Hnone. reflexivity.
    + apply get_client_frame in Hc as (? & ? & _). done.
  - intros call_next Hex. unfold guardial_middleware. rewrite Hex.
    unfold asgi_client_host. rewrite Hnone. reflexivity.
Qed.

Lemma request_without_client_raises_witness :
  run (guardial_middleware SampleClient.first
         (mkAsgi "GET" "/login" "" None None ∅ "") Sample.pipeline)
      (SampleClient.after SampleRun.ok_deny)
  = (Raise (AttributeError "'NoneType' object has no attribute 'host'"),
     SampleClient.after SampleRun.ok_deny).
Proof.
  exact (proj2 (request_without_client_raises
                  (mkAsgi "GET" "/login" "" None None ∅ "") SampleClient.first
                  (SampleClient.after SampleRun.ok_deny)
                  (SampleClient.after SampleRun.ok_deny) eq_refl)
               Sample.pipeline eq_refl).
Defined.

(** ** Registration and the global client *)

(** X10. The two middleware registrations share the global client: the
    first registration of a process builds it from the configuration it is
    given, and a later registration closes its hook over that same client,
    so the configuration passed the second time (another key, another
    endpoint) is not used; the second registration changes nothing. *)
Theorem second_registration_reuses_the_client
    (w : World) (first second : GuardialConfig) :
  _client w = None ->
  exists w1,
    run (fastapi_middleware (Some first)) w
      = (Ok (guardial_middleware (mkClient first)), w1)
    /\ run (flask_middleware (Some second)) w1
       = (Ok (guardial_before_request (mkClient first)), w1)
    /\ run (flask_middleware (Some first)) w
       = (Ok (guardial_before_request (mkClient first)), w1)
    /\ run (fastapi_middleware (Some second)) w1
       = (Ok (guardial_middleware (mkClient first)), w1)
    /\ run (get_client None) w1 = (Ok (mkClient first), w1)
    /\ posts w1 = posts w.
Proof.
  intros Hnone. exists (set_client (Some (mkClient first)) w).
  assert (run (get_client (Some first)) w
          = (Ok (mkClient first), set_client (Some (mkClient first)) w)) as H1
    by (by rewrite get_client_run, Hnone).
  assert (forall arg, run (get_client arg) (set_client (Some (mkClient first)) w)
                      = (Ok (mkClient first), set_client (Some (mkClient first)) w))
    as H2 by (intros arg; by apply get_client_cached).
  rewrite !fastapi_middleware_run, !flask_middleware_run, H1, !H2. done.
Qed.

Lemma second_registration_reuses_the_client_witness :
  exists w1,
    run (fastapi_middleware (Some Sample.cfg)) SampleNoKey.world
      = (Ok (guardial_middleware (mkClient Sample.cfg)), w1)
    /\ run (flask_middleware (Some Sample.cfg_debug)) w1
       = (Ok (guardial_before_request (mkClient Sample.cfg)), w1)
    /\ run (flask_middleware (Some Sample.cfg)) SampleNoKey.world
       = (Ok (guardial_before_request (mkClient Sample.cfg)), w1)
    /\ run (fastapi_middleware (Some Sample.cfg_debug)) w1
       = (Ok (guardial_middleware (mkClient Sample.cfg)), w1)
    /\ run (get_client None) w1 = (Ok (mkClient Sample.cfg), w1)
    /\ posts w1 = posts SampleNoKey.world.
Proof.
  exact (second_registration_reuses_the_client SampleNoKey.world Sample.cfg
           Sample.cfg_debug eq_refl).
Defined.

(** X11. A call of [get_client] that raises stores nothing: it was a call
    without a configuration, the global client is still missing afterwards,
    and the next call constructs again, from the configuration it is given. *)
Theorem failed_get_client_stores_nothing
    (w w1 : World) (arg : option GuardialConfig) (e : Exn) :
  run (get_client arg) w = (Raise e, w1) ->
  arg = None /\ _client w = None /\ _client w1 = None
  /\ e = ValueError missing_key_msg
  /\ forall cfg,
       run (get_client (Some cfg)) w1
       = (Ok (mkClient cfg), set_client (Some (mkClient cfg)) w1).
Proof.
  rewrite get_client_run. destruct (_client w) as [c|] eqn:Hc; [done|].
  rewrite GuardialClient_init_run. destruct arg as [cfg|]; [done|].
  unfold GuardialConfig_new. rewrite GuardialConfig_init_run. cbv zeta.
  destruct (PyStr.truthy _); [done|]. intros [= <- <-].
  repeat split; try done.
  intros cfg. rewrite get_client_run. cbn [_client set_uuid_reads set_time_reads].
  by rewrite Hc.
Qed.

Lemma failed_get_client_stores_nothing_witness :
  _client SampleNoKey.failed = None
  /\ run (get_client (Some Sample.cfg)) SampleNoKey.failed
     = (Ok (mkClient Sample.cfg),
        set_client (Some (mkClient Sample.cfg)) SampleNoKey.failed).
Proof.
  pose proof (failed_get_client_stores_nothing SampleNoKey.world
                SampleNoKey.failed None (ValueError missing_key_msg)
                ltac:(vm_compute; reflexivity)) as (_ & _ & Hnone & _ & Hnext).
  split; [exact Hnone|exact (Hnext Sample.cfg)].
Defined.

(** ** More on the configuration *)

(** X12. A variable that is set but empty is not the same as an unset
    one.  An empty [GUARDIAL_API_KEY] with no key passed is a missing key.
    An empty [GUARDIAL_ENDPOINT] or [GUARDIAL_CUSTOMER_ID] with nothing
    passed gives an empty endpoint or customer id, not the default, and a
    client with the empty endpoint posts to the bare path [/api/events]. *)
Theorem set_but_empty_variables (a : ConfigArgs) (w : World) :
  (given_str (arg_api_key a) = None ->
   environ w !! "GUARDIAL_API_KEY" = Some "" ->
   fst (run (GuardialConfig_new a) w) = Raise (ValueError missing_key_msg))
  /\ (forall cfg w',
        run (GuardialConfig_new a) w = (Ok cfg, w') ->
        (given_str (arg_endpoint a) = None ->
         environ w !! "GUARDIAL_ENDPOINT" = Some "" ->
         endpoint cfg = ""
         /\ forall method path ip ua hs q body w0,
             exists p,
               posts (snd (run (analyze_event (mkClient cfg) method path ip ua
                                              hs q body) w0))
                 = (posts w0 ++ [p])%list
               /\ post_url p = "/api/events")
        /\ (given_str (arg_customer_id a) = None ->
            environ w !! "GUARDIAL_CUSTOMER_ID" = Some "" ->
            customer_id cfg = "")).
Proof.
  unfold GuardialConfig_new. rewrite GuardialConfig_init_run. cbv zeta.
  rewrite !or_else_resolve. split.
  - intros -> ->. reflexivity.
  - intros cfg w'. destruct (PyStr.truthy _); [|done]. intros [= <- _].
    cbn [endpoint customer_id]. split.
    + intros -> ->. split; [reflexivity|].
      intros. eexists. split; [apply analyze_event_posts|reflexivity].
    + intros -> ->. reflexivity.
Qed.

Lemma set_but_empty_variables_witness :
  fst (run (GuardialConfig_new no_args) SampleEmptyEnv.keyless)
    = Raise (ValueError missing_key_msg)
  /\ endpoint SampleEmptyEnv.cfg = ""
  /\ customer_id SampleEmptyEnv.cfg = "".
Proof.
  pose proof (set_but_empty_variables no_args SampleEmptyEnv.keyless)
    as (Hkey & _).
  pose proof (set_but_empty_variables no_args SampleEmptyEnv.world)
    as (_ & Hrest).
  destruct (Hrest SampleEmptyEnv.cfg
              (SampleConfig.after_init SampleEmptyEnv.world)
              ltac:(vm_compute; reflexivity)) as (Hep & Hcid).
  split; [exact (Hkey eq_refl ltac:(vm_compute; reflexivity))|].
  split; [exact (proj1 (Hep eq_refl ltac:(vm_compute; reflexivity)))|].
  exact (Hcid eq_refl ltac:(vm_compute; reflexivity)).
Defined.

(** One character of a name compared up to case; no letter of [true] is
    a [k]. *)
Ltac by_next_char H :=
  cbn [equal_ignoring_case] in H;
  destruct H as [(? & -> & H)|[(? & _ & -> & H)|(? & Hk & _)]];
  [| |discriminate Hk].

Lemma lower_is_true (v : string) :
  PyStr.lower v = "true" <->
  exists c1 c2 c3 c4,
    v = String c1 (String c2 (String c3 (String c4 "")))
    /\ (c1 = "t" \/ c1 = "T")%char /\ (c2 = "r" \/ c2 = "R")%char
    /\ (c3 = "u" \/ c3 = "U")%char /\ (c4 = "e" \/ c4 = "E")%char.
Proof.
  split.
  - intros H. apply lower_is_equal_ignoring_case in H; [|cbn; repeat split; lia].
    by_next_char H; by_next_char H; by_next_char H; by_next_char H;
      cbn [equal_ignoring_case] in H; subst;
      eexists _, _, _, _; (split; [reflexivity|]);
      repeat split; first [by left | by right].
  - intros (c1 & c2 & c3 & c4 & -> & [->| ->] & [->| ->] & [->| ->] & [->| ->]);
      reflexivity.
Qed.

(** X13. With no [debug=True] passed, debugging is on exactly when
    [GUARDIAL_DEBUG] is one of the sixteen casings of [true]: four
    characters, t, r, u, e in either case.  Nothing else switches it on,
    neither [1] nor [yes] nor [true] with a space around it. *)
Theorem debug_variable_casings
    (a : ConfigArgs) (w w' : World) (cfg : GuardialConfig) :
  run (GuardialConfig_new a) w = (Ok cfg, w') ->
  default false (arg_debug a) = false ->
  (debug cfg = true <->
   exists c1 c2 c3 c4,
     environ w !! "GUARDIAL_DEBUG"
       = Some (String c1 (String c2 (String c3 (String c4 ""))))
     /\ (c1 = "t" \/ c1 = "T")%char /\ (c2 = "r" \/ c2 = "R")%char
     /\ (c3 = "u" \/ c3 = "U")%char /\ (c4 = "e" \/ c4 = "E")%char).
Proof.
  unfold GuardialConfig_new. rewrite GuardialConfig_init_run. cbv zeta.
  destruct (PyStr.truthy _); [|done]. intros [= <- _] ->.
  cbn [debug orb]. rewrite bool_decide_eq_true, lower_is_true.
  destruct (environ w !! "GUARDIAL_DEBUG") as [v|]; cbn [from_option id].
  - split.
    + intros (c1 & c2 & c3 & c4 & -> & H). by exists c1, c2, c3, c4.
    + intros (c1 & c2 & c3 & c4 & [= ->] & H). by exists c1, c2, c3, c4.
  - split.
    + intros (c1 & c2 & c3 & c4 & [= -> -> -> ->] & _ & _ & _ & [?|?]); done.
    + intros (c1 & c2 & c3 & c4 & ? & _); done.
Qed.

Lemma debug_variable_casings_witness :
  debug SampleConfig.cfg_falsy = true <->
  exists c1 c2 c3 c4,
    environ SampleConfig.world_full !! "GUARDIAL_DEBUG"
      = Some (String c1 (String c2 (String c3 (String c4 ""))))
    /\ (c1 = "t" \/ c1 = "T")%char /\ (c2 = "r" \/ c2 = "R")%char
    /\ (c3 = "u" \/ c3 = "U")%char /\ (c4 = "e" \/ c4 = "E")%char.
Proof.
  exact (debug_variable_casings SampleConfig.args_falsy SampleConfig.world_full
           (SampleConfig.after_init SampleConfig.world_full)
           SampleConfig.cfg_falsy ltac:(vm_compute; reflexivity) eq_refl).
Defined.

(** ** Which requests the middlewares analyse, and what they send *)

Lemma startswith_iff (s p : string) :
  PyStr.startswith s p = true <-> exists t, s = p ++ t.
Proof.
  revert s. induction p as [|a p IH]; intros [|b s]; cbn [PyStr.startswith].
  - split; [by exists ""|done].
  - split; [by exists (String b s)|done].
  - split; [done|]. by intros [t [=]].
  - rewrite andb_true_iff, bool_decide_eq_true, IH. split.
    + intros [-> [t ->]]. by exists t.
    + intros [t [= -> ->]]. split; [done|]. by exists t.
Qed.

(** X14. A path is excluded by plain string prefix, case-sensitively and
    without regard to path segments: the FastAPI middleware skips exactly
    the paths that extend [/health], [/docs] or [/openapi.json] by any
    suffix at all (so also [/healthcheck-admin] or [/docs.private]), the
    Flask hook exactly those that extend [/health] or [/static]; for such a
    path the hook returns in the world it was called in and the middleware
    goes straight to the pipeline. *)
Theorem exclusion_is_by_plain_prefix (path : string) :
  (existsb (PyStr.startswith path) fastapi_exclude_paths = true <->
   exists t, path = "/health" ++ t \/ path = "/docs" ++ t
             \/ path = "/openapi.json" ++ t)
  /\ (existsb (PyStr.startswith path) flask_exclude_paths = true <->
      exists t, path = "/health" ++ t \/ path = "/static" ++ t)
  /\ (forall c w rf t,
        f_path rf = "/health" ++ t \/ f_path rf = "/static" ++ t ->
        run (guardial_before_request c rf) w = (Ok tt, w))
  /\ (forall c w ra (call_next : Handler HttpResponse) t,
        a_path ra = "/health" ++ t \/ a_path ra = "/docs" ++ t
        \/ a_path ra = "/openapi.json" ++ t ->
        run (guardial_middleware c ra call_next) w
        = call_next [ArgRequest ra] []
            (set_calls (calls w ++ [mkCall [ArgRequest ra] []]) w)).
Proof.
  assert (forall p : string,
            existsb (PyStr.startswith p) fastapi_exclude_paths = true <->
            exists t, p = "/health" ++ t \/ p = "/docs" ++ t
                      \/ p = "/openapi.json" ++ t) as Hfast.
  { intros p. unfold fastapi_exclude_paths. cbn [existsb].
    rewrite !orb_true_iff, !startswith_iff. split.
    - intros [[t ->]|[[t ->]|[[t ->]|Hf]]]; try discriminate Hf; exists t; auto.
    - intros [t [-> | [-> | ->]]]; eauto 6. }
  assert (forall p : string,
            existsb (PyStr.startswith p) flask_exclude_paths = true <->
            exists t, p = "/health" ++ t \/ p = "/static" ++ t) as Hflask.
  { intros p. unfold flask_exclude_paths. cbn [existsb].
    rewrite !orb_true_iff, !startswith_iff. split.
    - intros [[t ->]|[[t ->]|Hf]]; try discriminate Hf; exists t; auto.
    - intros [t [-> | ->]]; eauto 6. }
  split; [apply Hfast|]. split; [apply Hflask|]. split.
  - intros c w rf t Ht. unfold guardial_before_request.
    replace (existsb _ _) with true; [reflexivity|].
    symmetry. apply Hflask. by exists t.
  - intros c w ra call_next t Ht. unfold guardial_middleware.
    replace (existsb _ _) with true; [reflexivity|].
    symmetry. apply Hfast. by exists t.
Qed.

Example lookalike_path_is_excluded :
  run (guardial_before_request SampleClient.first
         (SamplePaths.flask_at "/healthcheck-admin/delete"))
      (SampleClient.after SampleRun.ok_deny)
  = (Ok tt, SampleClient.after SampleRun.ok_deny).
Proof. vm_compute. reflexivity. Qed.

Example capitalised_path_is_analysed :
  fst (run (guardial_before_request SampleClient.first
              (SamplePaths.flask_at "/Health"))
           (SampleClient.after SampleRun.ok_deny))
  = Raise (WerkzeugAbort 403 "Request blocked by security policy").
Proof. vm_compute. reflexivity. Qed.





(** ** [health_check] and [test] *)

Lemma health_check_run (requests_get : string -> Z -> M Response)
    (self : GuardialClient) (w : World) :
  run (health_check requests_get self) w =
  match run (requests_get (endpoint (config self) ++ "/health")
                          (timeout (config self))) w with
  | (Ok r, w1) =>
      match attempt (Responds r) with
      | Ok v => (Ok v, w1)
      | Raise e => (Ok (health_fallback e), w1)
      end
  | (Raise e, w1) =>
      if is_Exception e then (Ok (health_fallback e), w1) else (Raise e, w1)
  end.
Proof.
  unfold health_check, try_except, run, mbind, M_bind, bind, attempt,
    raise_for_status, response_json.
  destruct (requests_get _ _ w) as [[r|e] w1]; [|reflexivity].
  destruct (PyStr.truthy (http_error_msg r)); [reflexivity|].
  destruct (resp_body r); reflexivity.
Qed.

Lemma health_fallback_fields (e : Exn) :
  dict_lookup (health_fallback e) "success" = Some (PBool false)
  /\ dict_lookup (health_fallback e) "error" = Some (PStr (exn_str e)).
Proof.
  unfold health_fallback, dict_lookup. split.
  - apply lookup_insert_eq.
  - rewrite lookup_insert_ne by done. apply lookup_singleton_eq.
Qed.

(** X16. [health_check] does nothing but the one GET of
    [endpoint + "/health"] with the configured timeout: the world it
    leaves is the one the GET left (it prints nothing, also when
    debugging).  It raises only an exception of the GET that is not an
    [Exception]; when the GET raises an [Exception], answers 4xx or 5xx,
    or sends a body that is not JSON, it returns a dictionary with
    [success = False] and the error text; otherwise it returns the JSON
    value as it came. *)
Theorem health_check_reports_failures
    (requests_get : string -> Z -> M Response) (self : GuardialClient)
    (w w1 : World) (out : Outcome Response) :
  run (requests_get (endpoint (config self) ++ "/health")
                    (timeout (config self))) w = (out, w1) ->
  snd (run (health_check requests_get self) w) = w1
  /\ (forall e, fst (run (health_check requests_get self) w) = Raise e
                <-> out = Raise e /\ is_Exception e = false)
  /\ (forall e, out = Raise e -> is_Exception e = true ->
        fst (run (health_check requests_get self) w) = Ok (health_fallback e))
  /\ (forall r, out = Ok r -> remote_call_fails (Responds r) ->
        exists e,
          fst (run (health_check requests_get self) w) = Ok (health_fallback e)
          /\ dict_lookup (health_fallback e) "success" = Some (PBool false)
          /\ dict_lookup (health_fallback e) "error" = Some (PStr (exn_str e)))
  /\ (forall r v, out = Ok r -> ~ (400 <= resp_status r < 600) ->
        resp_body r = JsonValue v ->
        fst (run (health_check requests_get self) w) = Ok v).
Proof.
  intros Hget. rewrite health_check_run, Hget.
  split; [|split; [|split; [|split]]].
  - destruct out as [r|e].
    + by destruct (attempt (Responds r)).
    + by destruct (is_Exception e).
  - intros e. destruct out as [r|e0].
    + destruct (attempt (Responds r)); cbn [fst]; split;
        first [done | by intros [? _]].
    + destruct (is_Exception e0) eqn:He0; cbn [fst]; split.
      * done.
      * intros [[= <-] ?]. congruence.
      * intros [= <-]. done.
      * by intros [[= <-] _].
  - intros e -> ->. reflexivity.
  - intros r -> Hfail. destruct (attempt_fails _ Hfail) as (e & -> & _).
    exists e. split; [reflexivity|]. apply health_fallback_fields.
  - intros r v -> Hst Hbody. unfold attempt.
    rewrite (http_error_msg_empty r Hst). cbn [PyStr.truthy].
    by rewrite Hbody.
Qed.

Lemma health_check_reports_failures_witness :
  snd (run (health_check SampleHealth.down Sample.client) SampleHealth.world)
    = SampleHealth.world
  /\ fst (run (health_check SampleHealth.down Sample.client) SampleHealth.world)
     = Ok (health_fallback (RequestException ConnectionError "Connection refused")).
Proof.
  pose proof (health_check_reports_failures SampleHealth.down Sample.client
                SampleHealth.world SampleHealth.world
                (Raise (RequestException ConnectionError "Connection refused"))
                eq_refl) as (Hw & _ & Hfail & _).
  split; [exact Hw|exact (Hfail _ eq_refl eq_refl)].
Defined.

Lemma test_run (requests_get : string -> Z -> M Response)
    (self : GuardialClient) (w w1 : World) (d : gmap string pyval) :
  run (health_check requests_get self) w = (Ok (PDict d), w1) ->
  run (test requests_get self) w
  = (Ok (PDict (<["success" := PBool (bool_decide (d !! "error" = None))]>
                  (<["endpoint" := PStr (endpoint (config self))]>
                     (<["customer_id" := PStr (customer_id (config self))]>
                        {[ "health" := PDict d ]})))), w1).
Proof.
  intros Hh. unfold test. rewrite (run_bind_ok _ _ _ _ _ Hh).
  unfold py_in, run, mbind, M_bind, bind, ret. do 4 f_equal.
  destruct (d !! "error") as [x|] eqn:Hx.
  - rewrite bool_decide_eq_true_2 by eauto.
    by rewrite bool_decide_eq_false_2.
  - rewrite bool_decide_eq_false_2 by (by intros [? ?]).
    by rewrite bool_decide_eq_true_2.
Qed.

(** X17. [test] reports [success] exactly when the health dictionary has
    no [error] key, and echoes the endpoint and the customer id of the
    configuration next to the health dictionary itself.  So a failed
    health check always gives [success = False], and so does an answer of
    a healthy service that carries an [error] key; [test] adds no effect
    of its own to those of [health_check]. *)
Theorem test_success_is_absence_of_error_key
    (requests_get : string -> Z -> M Response) (self : GuardialClient)
    (w w1 : World) (d : gmap string pyval) :
  run (health_check requests_get self) w = (Ok (PDict d), w1) ->
  exists t,
    run (test requests_get self) w = (Ok (PDict t), w1)
    /\ t !! "success" = Some (PBool (bool_decide (d !! "error" = None)))
    /\ t !! "endpoint" = Some (PStr (endpoint (config self)))
    /\ t !! "customer_id" = Some (PStr (customer_id (config self)))
    /\ t !! "health" = Some (PDict d)
    /\ (forall e, PDict d = health_fallback e ->
          t !! "success" = Some (PBool false))
    /\ (is_Some (d !! "error") -> t !! "success" = Some (PBool false)).
Proof.
  intros Hh. eexists. split; [apply (test_run _ _ _ _ _ Hh)|].
  split; [apply lookup_insert_eq|].
  split; [by rewrite lookup_insert_ne, lookup_insert_eq|].
  split; [rewrite !lookup_insert_ne by done; apply lookup_insert_eq|].
  split; [rewrite !lookup_insert_ne by done; apply lookup_singleton_eq|].
  split.
  - intros e [= ->]. rewrite lookup_insert_eq.
    rewrite bool_decide_eq_false_2; [done|].
    by rewrite lookup_insert_ne, lookup_singleton_eq.
  - intros [x Hx]. rewrite lookup_insert_eq.
    rewrite bool_decide_eq_false_2; [done|]. by rewrite Hx.
Qed.

Lemma test_success_is_absence_of_error_key_witness :
  (exists t,
     run (test SampleHealth.up Sample.client) SampleHealth.world
       = (Ok (PDict t), SampleHealth.world)
     /\ t !! "success"
        = Some (PBool (bool_decide (SampleHealth.up_dict !! "error" = None)))
     /\ t !! "endpoint" = Some (PStr "https://api.guardial.in")
     /\ t !! "customer_id" = Some (PStr "acme")
     /\ t !! "health" = Some (PDict SampleHealth.up_dict))
  /\ SampleHealth.up_dict !! "error" = None.
Proof.
  split; [|vm_compute; reflexivity].
  destruct (test_success_is_absence_of_error_key SampleHealth.up Sample.client
              SampleHealth.world SampleHealth.world SampleHealth.up_dict
              ltac:(vm_compute; reflexivity))
    as (t & Hrun & Hs & He & Hc & Hh & _).
  exists t. repeat split; assumption.
Defined.

Lemma str_contains_iff (s p : string) :
  str_contains s p = true <-> exists a b, s = a ++ p ++ b.
Proof.
  induction s as [|c s IH]; cbn [str_contains].
  - rewrite orb_false_r, startswith_iff. split.
    + intros [t Ht]. by exists "", t.
    + intros ([|? ?] & b & Hab); [by exists b|done].
  - rewrite orb_true_iff, startswith_iff, IH. split.
    + intros [[t Ht]|(a & b & ->)]; [by exists "", t|].
      by exists (String c a), b.
    + intros ([|c' a] & b & Hab); [left; by exists b|].
      injection Hab as -> ->. right. by exists a, b.
Qed.

(** X18. [test] on a health answer that is no JSON object.  For [null], a
    boolean or a number, the membership test raises [TypeError] with the
    message [argument of type 'T' is not iterable], [T] being [NoneType],
    [bool], [int] or [float], and so does [test]; for a string, [success]
    is true exactly when the text [error] does not occur in it; for a
    list, exactly when no element is the string [error]. *)
Theorem test_on_other_health_values
    (requests_get : string -> Z -> M Response) (self : GuardialClient)
    (w w1 : World) (v : pyval) :
  run (health_check requests_get self) w = (Ok v, w1) ->
  (v = PNone ->
   run (test requests_get self) w
   = (Raise (TypeError "argument of type 'NoneType' is not iterable"), w1))
  /\ ((exists b, v = PBool b) ->
      run (test requests_get self) w
      = (Raise (TypeError "argument of type 'bool' is not iterable"), w1))
  /\ ((exists z, v = PInt z) ->
      run (test requests_get self) w
      = (Raise (TypeError "argument of type 'int' is not iterable"), w1))
  /\ ((exists f, v = PFloat f) ->
      run (test requests_get self) w
      = (Raise (TypeError "argument of type 'float' is not iterable"), w1))
  /\ (forall s, v = PStr s ->
      exists t,
        run (test requests_get self) w = (Ok (PDict t), w1)
        /\ (t !! "success" = Some (PBool true)
            <-> ~ exists a b, s = a ++ "error" ++ b))
  /\ (forall l, v = PList l ->
      exists t,
        run (test requests_get self) w = (Ok (PDict t), w1)
        /\ (t !! "success" = Some (PBool true) <-> PStr "error" ∉ l)).
Proof.
  intros Hh. split; [|split; [|split; [|split; [|split]]]].
  - intros ->. unfold test. rewrite (run_bind_ok _ _ _ _ _ Hh). reflexivity.
  - intros [b ->]. unfold test. rewrite (run_bind_ok _ _ _ _ _ Hh).
    reflexivity.
  - intros [z ->]. unfold test. rewrite (run_bind_ok _ _ _ _ _ Hh).
    reflexivity.
  - intros [f ->]. unfold test. rewrite (run_bind_ok _ _ _ _ _ Hh).
    reflexivity.
  - intros s ->. eexists. split.
    + unfold test. rewrite (run_bind_ok _ _ _ _ _ Hh). reflexivity.
    + rewrite lookup_insert_eq, <- str_contains_iff.
      destruct (str_contains s "error"); cbn [negb]; split; try done.
  - intros l ->. eexists. split.
    + unfold test. rewrite (run_bind_ok _ _ _ _ _ Hh). reflexivity.
    + rewrite lookup_insert_eq.
      match goal with |- context [existsb ?f l] =>
        assert (existsb f l = true <-> PStr "error" ∈ l) as Hin end.
      { rewrite existsb_exists. split.
        - intros (x & Hx & Hf). destruct x; try done.
          apply bool_decide_eq_true in Hf as ->. by apply list_elem_of_In.
        - intros Hin. exists (PStr "error").
          split; [by apply list_elem_of_In|by apply bool_decide_eq_true]. }
      destruct (existsb _ l); cbn [negb]; split; try done.
      * intros Hl. destruct Hl. by apply Hin.
      * intros _ Hl. apply Hin in Hl. done.
Qed.

Lemma test_on_other_health_values_witness :
  run (test SampleHealth.says_null Sample.client) SampleHealth.world
  = (Raise (TypeError "argument of type 'NoneType' is not iterable"),
     SampleHealth.world).
Proof.
  exact (proj1 (test_on_other_health_values SampleHealth.says_null
                  Sample.client SampleHealth.world SampleHealth.world PNone
                  ltac:(vm_compute; reflexivity))
               eq_refl).
Defined.
